(** * A generic REST controller over a persistence model

    Shallow embedding of [Controller.js]: the [asyncHandler] wrapper and the
    [createController] factory with its six request handlers ([create],
    [getAll], [getById], [update], [remove], [toggleFlag]).

    Conventions of the embedding.
    - JavaScript numbers are modelled by their mathematical values, with the
      special values [NaN], the two infinities and the negative zero kept
      apart.  Binary64 represents every integer of magnitude up to 2^53
      exactly, which covers page numbers, limits and document counts.
    - JavaScript strings are [string]s: sequences of code units below 256.
    - A handler runs against a [World]: the state of the persistence layer,
      the response object of the request and the errors handed to [next].
      An [await] that rejects is an [Action] that ends in [Throw].
    - The Mongoose model given to [createController] is a parameter
      ([ModelOps]); what the properties below need of it is the contract
      [Lawful], which the model kept in memory ([Mem.MemModel]) meets. *)

From Stdlib Require Import ZArith QArith Qround Qreduction Lia.
From Stdlib Require Import Ascii String DecimalString DecimalZ DecimalPos.
From stdpp Require Import base option list gmap strings.

Set Warnings "-register-all".
Local Open Scope Z_scope.

(** ** Numbers *)

Module Num.

Inductive number : Type :=
| NaN
| PosInf
| NegInf
| NegZero
| Fin (q : Q).

(** The number of an integer literal or of an integer result. *)
Definition of_Z (z : Z) : number := Fin (inject_Z z).

Definition is_NaN (a : number) : bool :=
  match a with NaN => true | _ => false end.

Definition is_infinite (a : number) : bool :=
  match a with PosInf | NegInf => true | _ => false end.

(** The value of a finite number; both zeros have value 0. *)
Definition value (a : number) : Q :=
  match a with Fin q => q | _ => 0%Q end.

Definition is_zero (a : number) : bool :=
  match a with
  | NegZero => true
  | Fin q => Qeq_bool q 0
  | _ => false
  end.

Definition negative (a : number) : bool :=
  match a with
  | NegInf | NegZero => true
  | Fin q => match (q ?= 0)%Q with Lt => true | _ => false end
  | _ => false
  end.

Definition signed_inf (neg : bool) : number := if neg then NegInf else PosInf.
Definition signed_zero (neg : bool) : number := if neg then NegZero else Fin 0.

(** Order used by [Math.max] and [Math.min] on numbers other than [NaN]:
    the numeric order, with -0 below +0. *)
Definition compare (a b : number) : comparison :=
  match a, b with
  | NegInf, NegInf => Eq
  | NegInf, _ => Lt
  | _, NegInf => Gt
  | PosInf, PosInf => Eq
  | PosInf, _ => Gt
  | _, PosInf => Lt
  | NegZero, NegZero => Eq
  | NegZero, Fin q => match (0 ?= q)%Q with Gt => Gt | _ => Lt end
  | Fin q, NegZero => match (q ?= 0)%Q with Lt => Lt | _ => Gt end
  | Fin p, Fin q => (p ?= q)%Q
  | _, _ => Eq
  end.

(** [Math.max(a, b)] *)
Definition Math_max (a b : number) : number :=
  if is_NaN a || is_NaN b then NaN
  else match compare a b with Lt => b | _ => a end.

(** [Math.min(a, b)] *)
Definition Math_min (a b : number) : number :=
  if is_NaN a || is_NaN b then NaN
  else match compare a b with Gt => b | _ => a end.

(** [a - b] *)
Definition sub (a b : number) : number :=
  match a, b with
  | NaN, _ | _, NaN => NaN
  | PosInf, PosInf | NegInf, NegInf => NaN
  | PosInf, _ | _, NegInf => PosInf
  | NegInf, _ | _, PosInf => NegInf
  | NegZero, Fin q => if Qeq_bool q 0 then NegZero else Fin (Qred (- q))
  | _, _ => Fin (Qred (value a - value b))
  end.

(** [a * b] *)
Definition mul (a b : number) : number :=
  if is_NaN a || is_NaN b then NaN
  else
    let neg := xorb (negative a) (negative b) in
    if is_infinite a || is_infinite b then
      if is_zero a || is_zero b then NaN else signed_inf neg
    else if is_zero a || is_zero b then signed_zero neg
    else Fin (Qred (value a * value b)).

(** [a / b], as the exact quotient: binary64 rounds the quotient to 53
    bits, which leaves its ceiling as it is for a dividend up to 2^53 and a
    divisor from 1 to 100. *)
Definition div (a b : number) : number :=
  if is_NaN a || is_NaN b then NaN
  else
    let neg := xorb (negative a) (negative b) in
    if is_infinite a then
      if is_infinite b then NaN else signed_inf neg
    else if is_infinite b then signed_zero neg
    else if is_zero b then
      if is_zero a then NaN else signed_inf neg
    else if is_zero a then signed_zero neg
    else Fin (Qred (value a / value b)).

(** [Math.ceil(a)] *)
Definition Math_ceil (a : number) : number :=
  match a with
  | Fin q =>
      let c := Qceiling q in
      if (c =? 0) && negative a then NegZero else of_Z c
  | _ => a
  end.

End Num.

Export Num.

(** ** Strings and [parseInt] *)

Module Str.

Definition code (c : ascii) : Z := Z.of_N (N_of_ascii c).

(** White space and line terminators among the code units below 256:
    TAB, LF, VT, FF, CR, SP and NBSP. *)
Definition is_white_space (c : ascii) : bool :=
  let n := code c in
  ((9 <=? n) && (n <=? 13)) || (n =? 32) || (n =? 160).

Fixpoint trim_start (s : string) : string :=
  match s with
  | String c r => if is_white_space c then trim_start r else s
  | EmptyString => s
  end.

(** The value of a code unit as a digit: 0-9, then a-z and A-Z for 10-35. *)
Definition digit_value (c : ascii) : option Z :=
  let n := code c in
  if (48 <=? n) && (n <=? 57) then Some (n - 48)
  else if (97 <=? n) && (n <=? 122) then Some (n - 87)
  else if (65 <=? n) && (n <=? 90) then Some (n - 55)
  else None.

(** The digits of the longest prefix of [s] made of radix-[R] digits. *)
Fixpoint digits_prefix (R : Z) (s : string) : list Z :=
  match s with
  | String c r =>
      match digit_value c with
      | Some d => if d <? R then d :: digits_prefix R r else []
      | None => []
      end
  | EmptyString => []
  end.

(** The integer a list of radix-[R] digits denotes. *)
Definition math_int (R : Z) (ds : list Z) : Z :=
  fold_left (fun acc d => acc * R + d) ds 0.

Definition strip_sign (s : string) : bool * string :=
  match s with
  | String "-"%char r => (true, r)
  | String "+"%char r => (false, r)
  | _ => (false, s)
  end.

Definition strip_hex_prefix (s : string) : option string :=
  match s with
  | String "0"%char (String "x"%char r)
  | String "0"%char (String "X"%char r) => Some r
  | _ => None
  end.

(** [parseInt(s, radix)], for a radix that is an integer already.  The
    result is the exact integer of the numeral: the binary64 value that
    JavaScript returns is that integer when it is a safe integer, its
    rounding when it is larger, and an infinity from 2^1024 on. *)
Definition parseInt (s : string) (radix : Z) : number :=
  let '(neg, body) := strip_sign (trim_start s) in
  if negb (radix =? 0) && ((radix <? 2) || (36 <? radix)) then NaN
  else
    let R0 := if radix =? 0 then 10 else radix in
    let strip := (radix =? 0) || (radix =? 16) in
    let '(R, body) :=
      match (if strip then strip_hex_prefix body else None) with
      | Some r => (16, r)
      | None => (R0, body)
      end in
    match digits_prefix R body with
    | [] => NaN
    | ds =>
        let m := math_int R ds in
        if m =? 0 then signed_zero neg
        else of_Z (if neg then - m else m)
    end.

(** The decimal numeral of an integer, as it is written in a URL. *)
Definition decimal (z : Z) : string := NilZero.string_of_int (Z.to_int z).

End Str.

Export Str.

(** ** Values *)

Inductive jsval : Type :=
| JUndefined
| JNull
| JBool (b : bool)
| JNum (n : number)
| JStr (s : string)
| JArr (items : list jsval)
| JObj (fields : list (string * jsval)).

(** [ToBoolean] *)
Definition truthy (v : jsval) : bool :=
  match v with
  | JUndefined | JNull => false
  | JBool b => b
  | JNum n => negb (is_NaN n || is_zero n)
  | JStr s => negb (String.eqb s "")%string
  | JArr _ | JObj _ => true
  end.

(** Property read [o.k] on the fields of an object: [undefined] when absent. *)
Fixpoint get_prop (k : string) (fields : list (string * jsval)) : jsval :=
  match fields with
  | [] => JUndefined
  | (k', v) :: rest => if String.eqb k k' then v else get_prop k rest
  end.

(** Property write [o.k = v]: in place when present, appended otherwise. *)
Fixpoint set_prop (k : string) (v : jsval) (fields : list (string * jsval))
  : list (string * jsval) :=
  match fields with
  | [] => [(k, v)]
  | (k', v') :: rest =>
      if String.eqb k k' then (k, v) :: rest else (k', v') :: set_prop k v rest
  end.

(** A value of the parsed query string: a string, an array or an object. *)
Inductive qvalue : Type :=
| QStr (s : string)
| QArr (items : list qvalue)
| QObj (fields : list (string * qvalue)).

(** [ToString] on the values of an ordinary query, where it cannot fail:
    strings, arrays (joined with commas) and objects that take their
    [toString] from [Object.prototype]. *)
Fixpoint ToString (v : qvalue) : string :=
  match v with
  | QStr s => s
  | QArr items => String.concat ","%string (List.map ToString items)
  | QObj _ => "[object Object]"%string
  end.

Fixpoint jsval_of_qvalue (v : qvalue) : jsval :=
  match v with
  | QStr s => JStr s
  | QArr items => JArr (List.map jsval_of_qvalue items)
  | QObj fields =>
      JObj (List.map (fun kv => match kv with (k, x) => (k, jsval_of_qvalue x) end)
                     fields)
  end.

(** Truthiness of [req.query.k]: an absent parameter or an empty string is falsy. *)
Definition q_truthy (v : option qvalue) : bool :=
  match v with
  | None => false
  | Some (QStr s) => negb (String.eqb s "")%string
  | Some _ => true
  end.

(** [v || d] for a query parameter [v] and a string literal [d]. *)
Definition q_or (v : option qvalue) (d : string) : qvalue :=
  match v with
  | Some x => if q_truthy v then x else QStr d
  | None => QStr d
  end.

Fixpoint q_lookup (k : string) (query : list (string * qvalue)) : option qvalue :=
  match query with
  | [] => None
  | (k', v) :: rest => if String.eqb k k' then Some v else q_lookup k rest
  end.

(** ** Requests, responses and the world of one handler invocation *)

(** A stored record or a Mongoose document: the fields of the object.
    [.lean()] asks for plain objects instead of hydrated documents; both
    are represented by their fields. *)
Definition Document : Type := list (string * jsval).

Record Request : Type := {
  req_query : list (string * qvalue);     (* req.query *)
  req_params : list (string * string);    (* req.params *)
  req_body : jsval;                       (* req.body *)
  req_validation : list jsval             (* failures recorded by the validators *)
}.

(** [req.params.id] *)
Definition param (k : string) (req : Request) : jsval :=
  get_prop k (List.map (fun kv => (fst kv, JStr (snd kv))) (req_params req)).

(** [validationResult(req)] of express-validator collects the failures that
    the validation chains, run before the handler, left on the request. *)
Record Result : Type := { failures : list jsval }.
Definition validationResult (req : Request) : Result :=
  {| failures := req_validation req |}.
Definition isEmpty (r : Result) : bool :=
  match failures r with [] => true | _ => false end.
Definition array (r : Result) : list jsval := failures r.

Record Response : Type := {
  statusCode : Z;
  sent : option jsval
}.

Definition fresh_response : Response := {| statusCode := 200; sent := None |}.

Inductive outcome (A : Type) : Type :=
| Ret (a : A)
| Throw (e : jsval).
Arguments Ret {A} a.
Arguments Throw {A} e.

Section World.

Context {Store : Type}.

Record World : Type := {
  db : Store;                (* the state of the persistence layer *)
  res : Response;            (* the response object [res] *)
  forwarded : list jsval     (* the errors given to [next], oldest first *)
}.

Definition Action (A : Type) : Type := World -> outcome A * World.

Definition Next : Type := jsval -> World -> World.

#[export] Instance action_ret : MRet Action :=
  fun A a w => (Ret a, w).

#[export] Instance action_bind : MBind Action :=
  fun A B f m w =>
    match m w with
    | (Ret a, w') => f a w'
    | (Throw e, w') => (Throw e, w')
    end.

(** [await] of a call that only reads the store. *)
Definition await_read {A} (call : Store -> outcome A) : Action A :=
  fun w => (call (db w), w).

(** [await] of a call that may write the store. *)
Definition await {A} (call : Store -> outcome A * Store) : Action A :=
  fun w =>
    let '(o, s) := call (db w) in
    (o, {| db := s; res := res w; forwarded := forwarded w |}).

(** [res.status(code)] *)
Definition status (code : Z) : Action unit :=
  fun w =>
    (Ret tt, {| db := db w;
                res := {| statusCode := code; sent := sent (res w) |};
                forwarded := forwarded w |}).

(** [res.json(body)]: sends [body] with the current status code; a second
    send fails with ERR_HTTP_HEADERS_SENT. *)
Definition json (body : jsval) : Action unit :=
  fun w =>
    match sent (res w) with
    | Some _ => (Throw (JStr "ERR_HTTP_HEADERS_SENT"), w)
    | None =>
        (Ret tt, {| db := db w;
                    res := {| statusCode := statusCode (res w); sent := Some body |};
                    forwarded := forwarded w |})
    end.

(** The [next] of Express: hands the error to the error-handling chain. *)
Definition forward : Next :=
  fun e w => {| db := db w; res := res w; forwarded := forwarded w ++ [e] |}.

(** [Promise.all([a, b])] of two calls that were both started: it fulfils
    with both values, and rejects with the rejection that settles first. *)
Definition Promise_all2 {A B} (a_first : bool) (a : outcome A) (b : outcome B)
  : outcome (A * B) :=
  match a, b with
  | Ret x, Ret y => Ret (x, y)
  | Throw e, Ret _ => Throw e
  | Ret _, Throw e => Throw e
  | Throw e1, Throw e2 => Throw (if a_first then e1 else e2)
  end.

End World.

Arguments World Store : clear implicits.
Arguments Action Store A : clear implicits.
Arguments Next Store : clear implicits.

(** ** The model given to the factory *)

Record UpdateOptions : Type := { new : bool; runValidators : bool }.

(** The calls the controller makes on its Mongoose model.  Queries read the
    store; [new Model(..)], [save] and the find-and-modify calls may write
    it; every call may throw (reject). *)
Record ModelOps (Store : Type) : Type := {
  construct : jsval -> Store -> outcome Document * Store;   (* new Model(payload) *)
  save : Document -> Store -> outcome Document * Store;     (* doc.save(); the document afterwards *)
  countDocuments : jsval -> Store -> outcome number;
  find : jsval -> number -> number -> Store -> outcome (list Document);
                                                 (* find(filter).skip(skip).limit(limit) *)
  findById : jsval -> Store -> outcome (option Document);
  findByIdAndUpdate :
    jsval -> jsval -> UpdateOptions -> Store -> outcome (option Document) * Store;
  findByIdAndDelete : jsval -> Store -> outcome (option Document) * Store;
  count_settles_first : Store -> bool
    (* of two rejected queries, whether the count is the first to settle *)
}.
Arguments construct {Store}.
Arguments save {Store}.
Arguments countDocuments {Store}.
Arguments find {Store}.
Arguments findById {Store}.
Arguments findByIdAndUpdate {Store}.
Arguments findByIdAndDelete {Store}.
Arguments count_settles_first {Store}.

(** ** Controller.js *)

Module Controller.

Section Factory.

Context {Store : Type}.

(** [const asyncHandler = (fn) => (req, res, next) =>
    { Promise.resolve(fn(req, res, next)).catch(next); }] *)
Definition asyncHandler (fn : Request -> Next Store -> Action Store unit)
: Request -> Next Store -> World Store -> World Store :=
fun req next w =>
  match fn req next w with
  | (Ret _, w') => w'
  | (Throw e, w') => next e w'
  end.

Variable Model : ModelOps Store.

Definition not_found : jsval :=
JObj [("success", JBool false); ("message", JStr "Not found")]%string.

(** The locals [page], [limit], [skip] and [filter] of [getAll]. *)
Definition getAll_page (req : Request) : number :=
Math_max (of_Z 1) (parseInt (ToString (q_or (q_lookup "page" (req_query req)) "1")) 10).

Definition getAll_limit (req : Request) : number :=
Math_min (of_Z 100) (parseInt (ToString (q_or (q_lookup "limit" (req_query req)) "25")) 10).

Definition getAll_skip (req : Request) : number :=
mul (sub (getAll_page req) (of_Z 1)) (getAll_limit req).

Definition getAll_filter (req : Request) : jsval :=
match q_lookup "q" (req_query req) with
| Some q =>
    if q_truthy (Some q)
    then JObj [("$text", JObj [("$search", jsval_of_qvalue q)])]%string
    else JObj []
| None => JObj []
end.

Definition create_fn (req : Request) (_ : Next Store) : Action Store unit :=
let errors := validationResult req in
if negb (isEmpty errors) then
  _ ← status 400; json (JObj [("errors", JArr (array errors))]%string)
else
  let payload := req_body req in
  doc ← await (construct Model payload);
  doc ← await (save Model doc);
  _ ← status 201;
  json (JObj [("success", JBool true); ("data", JObj doc)]%string).

Definition getAll_fn (req : Request) (_ : Next Store) : Action Store unit :=
let page := getAll_page req in
let limit := getAll_limit req in
let skip := getAll_skip req in
let filter := getAll_filter req in
r ← await_read (fun s =>
       Promise_all2 (count_settles_first Model s)
                    (countDocuments Model filter s)
                    (find Model filter skip limit s));
let '(total, items) := r in
json (JObj [("success", JBool true);
            ("meta", JObj [("page", JNum page); ("limit", JNum limit);
                           ("total", JNum total);
                           ("pages", JNum (Math_ceil (div total limit)))]);
            ("data", JArr (List.map JObj items))]%string).

Definition getById_fn (req : Request) (_ : Next Store) : Action Store unit :=
let id := param "id" req in
doc ← await_read (findById Model id);
match doc with
| None => _ ← status 404; json not_found
| Some doc => json (JObj [("success", JBool true); ("data", JObj doc)]%string)
end.

Definition update_fn (req : Request) (_ : Next Store) : Action Store unit :=
let id := param "id" req in
let payload := req_body req in
doc ← await (findByIdAndUpdate Model id payload
               {| new := true; runValidators := true |});
match doc with
| None => _ ← status 404; json not_found
| Some doc => json (JObj [("success", JBool true); ("data", JObj doc)]%string)
end.

Definition remove_fn (req : Request) (_ : Next Store) : Action Store unit :=
let id := param "id" req in
doc ← await (findByIdAndDelete Model id);
match doc with
| None => _ ← status 404; json not_found
| Some _ =>
    json (JObj [("success", JBool true); ("message", JStr "Deleted")]%string)
end.

Definition toggleFlag_fn (req : Request) (_ : Next Store) : Action Store unit :=
let id := param "id" req in
doc ← await_read (findById Model id);
match doc with
| None => _ ← status 404; json not_found
| Some doc =>
    let doc := set_prop "active" (JBool (negb (truthy (get_prop "active" doc)))) doc in
    doc ← await (save Model doc);
    json (JObj [("success", JBool true); ("data", JObj doc)]%string)
end.

Record Controller : Type := {
create : Request -> Next Store -> World Store -> World Store;
getAll : Request -> Next Store -> World Store -> World Store;
getById : Request -> Next Store -> World Store -> World Store;
update : Request -> Next Store -> World Store -> World Store;
remove : Request -> Next Store -> World Store -> World Store;
toggleFlag : Request -> Next Store -> World Store -> World Store
}.

Definition createController : Controller := {|
create := asyncHandler create_fn;
getAll := asyncHandler getAll_fn;
getById := asyncHandler getById_fn;
update := asyncHandler update_fn;
remove := asyncHandler remove_fn;
toggleFlag := asyncHandler toggleFlag_fn
|}.

End Factory.

End Controller.

(** ** The contract of the persistence layer

    The controller is written against any Mongoose model.  What it relies
    on is stated over [stored], the collection a state of the persistence
    layer holds: the records by identifier.  Every law speaks of a call
    that returned; a call may always throw instead. *)

Section Contract.

Context {Store : Type}.
Variable Model : ModelOps Store.
Variable stored : Store -> gmap string Document.

Class Lawful : Prop := {
  (** a stored record carries its identifier *)
  stored_id : forall s k d,
    stored s !! k = Some d -> get_prop "_id" d = JStr k;
  (** a lookup returns the record stored under the identifier, if any *)
  findById_returns : forall s k r,
    findById Model (JStr k) s = Ret r -> r = stored s !! k;
  (** an update of an identifier that is not stored finds and writes nothing *)
  update_absent : forall s s' k payload opts r,
    findByIdAndUpdate Model (JStr k) payload opts s = (Ret r, s') ->
    stored s !! k = None ->
    r = None /\ stored s' = stored s;
  (** a delete returns the record it found and removes it *)
  delete_returns : forall s s' k r,
    findByIdAndDelete Model (JStr k) s = (Ret r, s') ->
    r = stored s !! k /\ stored s' = delete k (stored s);
  (** a constructed document has an identifier and is not stored yet *)
  construct_returns : forall s s' payload d,
    construct Model payload s = (Ret d, s') ->
    (exists k, get_prop "_id" d = JStr k) /\ stored s' = stored s;
  (** a save stores the document under its identifier and keeps a
      boolean [active] as the caller set it *)
  save_returns : forall s s' k d d',
    get_prop "_id" d = JStr k ->
    save Model d s = (Ret d', s') ->
    get_prop "_id" d' = JStr k /\
    (forall b, get_prop "active" d = JBool b -> get_prop "active" d' = JBool b) /\
    stored s' = <[k := d']> (stored s)
}.

End Contract.

Arguments stored_id {Store Model stored Lawful}.
Arguments findById_returns {Store Model stored Lawful}.
Arguments update_absent {Store Model stored Lawful}.
Arguments delete_returns {Store Model stored Lawful}.
Arguments construct_returns {Store Model stored Lawful}.
Arguments save_returns {Store Model stored Lawful}.

(** ** A model kept in memory

    Modelled from the spec: the persistence-layer collection of the
    external interfaces (create, count and find with a filter, find by
    identifier, find-and-update and find-and-delete by identifier), which is
    not part of the sources.  It is an instance of the contract, to run the
    controller on: the records are kept in a finite map by identifier,
    identifiers are strings of 24 hexadecimal digits, and [valid] and
    [matches] stand for the schema validation and the query matching of the
    application's model. *)

Module Mem.

Record MemStore : Type := {
  records : gmap string (list (string * jsval));   (* the fields of each record *)
  counter : Z                                      (* source of fresh identifiers *)
}.

Definition stored (s : MemStore) : gmap string Document :=
  map_imap (fun k d => Some (set_prop "_id" (JStr k) d)) (records s).

Definition is_hex (c : ascii) : bool :=
  match digit_value c with Some d => d <? 16 | None => false end.

Definition valid_id (id : jsval) : option string :=
  match id with
  | JStr k =>
      if (Z.of_nat (String.length k) =? 24) && forallb is_hex (list_ascii_of_string k)
      then Some k else None
  | _ => None
  end.

Definition CastError : jsval := JObj [("name", JStr "CastError")]%string.
Definition ValidationError : jsval := JObj [("name", JStr "ValidationError")]%string.
Definition ObjectParameterError : jsval :=
  JObj [("name", JStr "ObjectParameterError")]%string.

Fixpoint zeros (n : nat) : string :=
  match n with O => EmptyString | S m => String "0"%char (zeros m) end.

Definition fresh_id (s : MemStore) : string :=
  let d := decimal (Z.abs (counter s)) in
  (zeros (24 - String.length d) ++ d)%string.

Section Schema.

Variable valid : Document -> bool.
Variable matches : jsval -> Document -> bool.

Definition mem_construct (payload : jsval) (s : MemStore)
  : outcome Document * MemStore :=
  match payload with
  | JObj fields =>
      (Ret (set_prop "_id" (JStr (fresh_id s)) fields),
       {| records := records s; counter := counter s + 1 |})
  | _ => (Throw ObjectParameterError, s)
  end.

Definition mem_save (d : Document) (s : MemStore) : outcome Document * MemStore :=
  match get_prop "_id" d with
  | JStr k =>
      if valid d
      then (Ret d, {| records := <[k := d]> (records s); counter := counter s |})
      else (Throw ValidationError, s)
  | _ => (Throw ValidationError, s)
  end.

Definition selected (filter : jsval) (s : MemStore) : list Document :=
  List.filter (matches filter) (List.map snd (map_to_list (stored s))).

Definition mem_countDocuments (filter : jsval) (s : MemStore) : outcome number :=
  Ret (of_Z (Z.of_nat (List.length (selected filter s)))).

(** A natural number when the number is a non-negative integer. *)
Definition index_of (n : number) : option nat :=
  match n with
  | Fin q =>
      if Qeq_bool q (inject_Z (Qfloor q)) && (0 <=? Qfloor q)
      then Some (Z.to_nat (Qfloor q)) else None
  | _ => None
  end.

Definition mem_find (filter : jsval) (skip limit : number) (s : MemStore)
  : outcome (list Document) :=
  match index_of skip, index_of limit with
  | Some i, Some n =>
      let rest := drop i (selected filter s) in
      Ret (if (n =? 0)%nat then rest else take n rest)
  | _, _ => Throw CastError
  end.

Definition mem_findById (id : jsval) (s : MemStore) : outcome (option Document) :=
  match valid_id id with
  | Some k => Ret (stored s !! k)
  | None => Throw CastError
  end.

Definition assign (d : Document) (payload : list (string * jsval)) : Document :=
  fold_left (fun acc kv => set_prop (fst kv) (snd kv) acc) payload d.

Definition mem_findByIdAndUpdate (id payload : jsval) (opts : UpdateOptions)
    (s : MemStore) : outcome (option Document) * MemStore :=
  match valid_id id, payload with
  | Some k, JObj fields =>
      match stored s !! k with
      | None => (Ret None, s)
      | Some d =>
          let d' := set_prop "_id" (JStr k) (assign d fields) in
          if runValidators opts && negb (valid d') then (Throw ValidationError, s)
          else (Ret (Some (if new opts then d' else d)),
                {| records := <[k := d']> (records s); counter := counter s |})
      end
  | Some _, _ => (Throw ObjectParameterError, s)
  | None, _ => (Throw CastError, s)
  end.

Definition mem_findByIdAndDelete (id : jsval) (s : MemStore)
  : outcome (option Document) * MemStore :=
  match valid_id id with
  | Some k =>
      (Ret (stored s !! k),
       {| records := delete k (records s); counter := counter s |})
  | None => (Throw CastError, s)
  end.

Definition MemModel : ModelOps MemStore := {|
  construct := mem_construct;
  save := mem_save;
  countDocuments := mem_countDocuments;
  find := mem_find;
  findById := mem_findById;
  findByIdAndUpdate := mem_findByIdAndUpdate;
  findByIdAndDelete := mem_findByIdAndDelete;
  count_settles_first := fun _ => true
|}.

End Schema.

End Mem.

(** ** Running a handler *)

Section Serve.

Context {Store : Type}.

(** The world a request meets: the store as it is, a response object on
    which nothing was sent, and no error forwarded. *)
Definition fresh_world (s : Store) : World Store :=
  {| db := s; res := fresh_response; forwarded := [] |}.

(** One request served by a handler, with the [next] of Express. *)
Definition serve (h : Request -> Next Store -> World Store -> World Store)
    (req : Request) (s : Store) : World Store :=
  h req forward (fresh_world s).

(** The world after a response with status [code] and body [body]. *)
Definition responded (code : Z) (body : jsval) (s : Store) : World Store :=
  {| db := s; res := {| statusCode := code; sent := Some body |}; forwarded := [] |}.

End Serve.

(** [v.k] on a value: the property of an object, [undefined] otherwise. *)
Definition field (k : string) (v : jsval) : jsval :=
  match v with JObj fields => get_prop k fields | _ => JUndefined end.

(** The body that was sent, [undefined] when none was. *)
Definition body_sent {Store} (w : World Store) : jsval :=
  match sent (res w) with Some b => b | None => JUndefined end.

Definition request_with_id (k : string) (payload : jsval) : Request :=
  {| req_query := []; req_params := [("id", k)]%string;
     req_body := payload; req_validation := [] |}.

Definition request_with_query (q : list (string * qvalue)) : Request :=
  {| req_query := q; req_params := []; req_body := JUndefined; req_validation := [] |}.

(** The world [w] with the store replaced by [s]: what a call that wrote
    the store leaves when nothing was sent. *)
Definition with_db {Store} (s : Store) (w : World Store) : World Store :=
  {| db := s; res := res w; forwarded := forwarded w |}.

(** The document [toggleFlag] saves: [doc.active = !doc.active]. *)
Definition toggled (doc : Document) : Document :=
  set_prop "active" (JBool (negb (truthy (get_prop "active" doc)))) doc.

Definition found_body (doc : Document) : jsval :=
  JObj [("success", JBool true); ("data", JObj doc)]%string.

Definition deleted_body : jsval :=
  JObj [("success", JBool true); ("message", JStr "Deleted")]%string.

Definition errors_body (errors : list jsval) : jsval :=
  JObj [("errors", JArr errors)]%string.

(** The options [update] passes to [findByIdAndUpdate]. *)
Definition update_options : UpdateOptions := {| new := true; runValidators := true |}.

(** ** Sample data for the model kept in memory *)

Module Sample.

Import Mem.

Definition flight_id : string := "64b0c0ffee0000000000a001".

(** A record without the [active] flag, and one with it. *)
Definition flight : Document :=
  [("_id", JStr flight_id); ("name", JStr "A")]%string.

Definition flight_on : Document :=
  [("_id", JStr flight_id); ("name", JStr "A"); ("active", JBool true)]%string.

(** The schema asks for a name that is a string. *)
Definition named (d : Document) : bool :=
  match get_prop "name" d with JStr _ => true | _ => false end.

Definition every (_ : jsval) (_ : Document) : bool := true.

Definition Flights : ModelOps MemStore := MemModel named every.

Definition store_of (d : Document) : MemStore :=
  {| records := {[ flight_id := d ]}; counter := 1 |}.

Definition empty_store : MemStore := {| records := ∅; counter := 1 |}.

Definition by_id : Request := request_with_id flight_id (JObj []).


Definition new_flight : Request :=
  {| req_query := []; req_params := [];
     req_body := JObj [("name", JStr "A")]%string; req_validation := [] |}.

(** The document and the store that creating [new_flight] in [empty_store] gives. *)
Definition created : Document :=
  [("name", JStr "A"); ("_id", JStr "000000000000000000000001")]%string.

Definition created_store : MemStore :=
  {| records := {[ "000000000000000000000001"%string := created ]}; counter := 2 |}.

Definition rejected_flight : Request :=
  {| req_query := []; req_params := [];
     req_body := JObj [("name", JNull)]%string;
     req_validation := [JObj [("path", JStr "name"); ("msg", JStr "Invalid value")]]%string |}.



Definition limit_40 : Request := request_with_query [("limit", QStr "40")]%string.
Definition limit_0 : Request := request_with_query [("limit", QStr "0")]%string.
Definition search_only : Request := request_with_query [("q", QStr "boeing")]%string.

End Sample.

(** The body [getAll] sends for a count [total] and a page [items]. *)
Definition list_body (req : Request) (total : number) (items : list Document) : jsval :=
  JObj [("success", JBool true);
        ("meta", JObj [("page", JNum (Controller.getAll_page req));
                       ("limit", JNum (Controller.getAll_limit req));
                       ("total", JNum total);
                       ("pages", JNum (Math_ceil (div total (Controller.getAll_limit req))))]);
        ("data", JArr (List.map JObj items))]%string.

(** An integer that binary64 holds exactly, as every integer up to 2^53 in
    magnitude is. *)
Definition safe_integer (z : Z) : Prop :=
  - 9007199254740992 <= z <= 9007199254740992.

(** A number above zero. *)
Definition positive_number (a : number) : Prop := Num.compare (of_Z 0) a = Lt.

(** The [active] of the record stored under [k], if there is one. *)
Definition active_of (m : gmap string Document) (k : string) : option jsval :=
  get_prop "active" <$> m !! k.

(** Two [toggleFlag] in succession leave the [active] of the record as it was. *)
Definition toggle_twice_restores {Store} (Model : ModelOps Store)
    (stored : Store -> gmap string Document) (req : Request) (k : string) (s : Store)
  : Prop :=
  let toggle := Controller.toggleFlag (Controller.createController Model) in
  active_of (stored (db (serve toggle req (db (serve toggle req s))))) k
  = active_of (stored s) k.

(** The limit of a list request stays within 1 and 100. *)
Definition limit_in_range (req : Request) : Prop :=
  exists l : Z, Controller.getAll_limit req = of_Z l /\ 1 <= l <= 100.

(** The digits of an unsigned decimal numeral, most significant first. *)
Fixpoint udigits (d : Decimal.uint) : list Z :=
  match d with
  | Decimal.Nil => []
  | Decimal.D0 l => 0 :: udigits l
  | Decimal.D1 l => 1 :: udigits l
  | Decimal.D2 l => 2 :: udigits l
  | Decimal.D3 l => 3 :: udigits l
  | Decimal.D4 l => 4 :: udigits l
  | Decimal.D5 l => 5 :: udigits l
  | Decimal.D6 l => 6 :: udigits l
  | Decimal.D7 l => 7 :: udigits l
  | Decimal.D8 l => 8 :: udigits l
  | Decimal.D9 l => 9 :: udigits l
  end.

(** ** Further notions for the properties of the handlers *)

(** A handler invocation has settled: one body was sent and no error was
    handed on, or nothing was sent and one error was handed on. *)
Definition settled {Store} (w : World Store) : Prop :=
  (exists b, sent (res w) = Some b /\ forwarded w = []) \/
  (res w = fresh_response /\ exists e, forwarded w = [e]).

(** A body that was sent goes with its status code: success bodies with
    200 or 201, the not-found body with 404, the list of failures with 400;
    and the code is one of [codes]. *)
Definition reply_in {Store} (codes : list Z) (req : Request) (w : World Store) : Prop :=
  forall b, sent (res w) = Some b ->
    In (statusCode (res w)) codes /\
    (((statusCode (res w) = 200 \/ statusCode (res w) = 201) /\
      field "success" b = JBool true) \/
     (statusCode (res w) = 404 /\ b = Controller.not_found) \/
     (statusCode (res w) = 400 /\ b = errors_body (req_validation req) /\
      req_validation req <> [])).

(** A query value in which [parseInt] finds no numeral: a string that
    starts with a letter. *)
Definition not_numeric (v : qvalue) : Prop :=
  match v with
  | QStr (String c _) => exists d, digit_value c = Some d /\ 10 <= d
  | _ => False
  end.

(** A query parameter as the simple query parser gives it: absent, a
    string, or an array of strings.  The conversion of such a value to a
    string cannot fail. *)
Definition plain (v : option qvalue) : Prop :=
  match v with
  | None => True
  | Some (QStr _) => True
  | Some (QArr items) => Forall (fun x => exists s, x = QStr s) items
  | Some (QObj _) => False
  end.

(** More sample requests. *)
Module Cases.

Definition page_abc : Request := request_with_query [("page", QStr "abc")]%string.
Definition limit_many : Request :=
  request_with_query [("limit", QStr "many")]%string.
Definition page_twice : Request :=
  request_with_query [("page", QArr [QStr "2"; QStr "3"])]%string.
Definition limit_twice : Request :=
  request_with_query [("limit", QArr [QStr "500"; QStr "3"])]%string.
Definition blank : Request :=
  request_with_query [("page", QStr ""); ("limit", QStr "")]%string.
Definition page_3_limit_10 : Request :=
  request_with_query [("page", QStr "3"); ("limit", QStr "10")]%string.
Definition page_1_limit_10 : Request :=
  request_with_query [("page", QStr "1"); ("limit", QStr "10")]%string.

(** A second record, under another identifier. *)
Definition other_id : string := "64b0c0ffee0000000000a002".
Definition other : Document :=
  [("_id", JStr other_id); ("name", JStr "B"); ("active", JBool false)]%string.

Definition two_flights : Mem.MemStore :=
  {| Mem.records := {[ Sample.flight_id := Sample.flight_on; other_id := other ]};
     Mem.counter := 1 |}.

Definition by_other_id : Request := request_with_id other_id (JObj []).

End Cases.

(** * Properties *)

(** ** Numbers and [parseInt] *)

Lemma compare_of_Z (a b : Z) : Num.compare (of_Z a) (of_Z b) = (a ?= b).
Proof.
  unfold Num.compare, of_Z, Qcompare, inject_Z; simpl.
  now rewrite !Z.mul_1_r.
Qed.

Lemma Math_max_of_Z (a b : Z) : Math_max (of_Z a) (of_Z b) = of_Z (Z.max a b).
Proof.
  unfold Math_max. change (is_NaN (of_Z a) || is_NaN (of_Z b)) with false.
  cbv iota. rewrite compare_of_Z. unfold Z.max.
  destruct (a ?= b); reflexivity.
Qed.

Lemma Math_min_of_Z (a b : Z) : Math_min (of_Z a) (of_Z b) = of_Z (Z.min a b).
Proof.
  unfold Math_min. change (is_NaN (of_Z a) || is_NaN (of_Z b)) with false.
  cbv iota. rewrite compare_of_Z. unfold Z.min.
  destruct (a ?= b); reflexivity.
Qed.

Lemma digits_of_numeral (d : Decimal.uint) :
  digits_prefix 10 (NilEmpty.string_of_uint d) = udigits d.
Proof.
  induction d; simpl; try reflexivity; unfold digit_value; simpl; now rewrite IHd.
Qed.

Lemma numeral_of_positive (p : positive) :
  NilZero.string_of_uint (Pos.to_uint p) = NilEmpty.string_of_uint (Pos.to_uint p).
Proof.
  pose proof (Unsigned.of_to p) as Hp.
  destruct (Pos.to_uint p); try reflexivity; discriminate.
Qed.

Lemma fold_digits_acc (d : Decimal.uint) (acc : positive) :
  fold_left (fun a x => a * 10 + x) (udigits d) (Z.pos acc)
  = Z.pos (Pos.of_uint_acc d acc).
Proof.
  revert acc; induction d; intros acc; simpl; try reflexivity;
    rewrite <- IHd; f_equal; lia.
Qed.

Lemma math_int_numeral (d : Decimal.uint) :
  math_int 10 (udigits d) = Z.of_N (Pos.of_uint d).
Proof.
  unfold math_int.
  induction d; simpl; try reflexivity; try apply IHd; apply fold_digits_acc.
Qed.

Lemma numeral_not_blank (p : positive) :
  exists c r, NilZero.string_of_uint (Pos.to_uint p) = String c r
              /\ is_white_space c = false /\ c <> "-"%char /\ c <> "+"%char.
Proof.
  pose proof (Unsigned.of_to p) as Hp.
  destruct (Pos.to_uint p) eqn:E; simpl in *; try discriminate;
    eexists _, _; (split; [reflexivity |]); repeat split; try discriminate.
Qed.

Lemma parseInt_numeral (neg : bool) (p : positive) :
  parseInt (String.append (if neg then "-" else "")
              (NilZero.string_of_uint (Pos.to_uint p))) 10
  = of_Z (if neg then Z.neg p else Z.pos p).
Proof.
  destruct (numeral_not_blank p) as (c & r & E & Hw & Hm & Hp).
  assert (Hm' : math_int 10 (digits_prefix 10 (String c r)) = Z.pos p).
  { rewrite <- E, numeral_of_positive, digits_of_numeral, math_int_numeral,
      Unsigned.of_to. reflexivity. }
  assert (Hne : digits_prefix 10 (String c r) <> []).
  { intros Hnil. rewrite Hnil in Hm'. discriminate. }
  rewrite E. unfold parseInt.
  assert (Hs : strip_sign (trim_start (String.append (if neg then "-" else "") (String c r)))
               = (neg, String c r)).
  { destruct neg; simpl.
    - reflexivity.
    - rewrite Hw. unfold strip_sign.
      destruct c as [[] [] [] [] [] [] [] []]; try reflexivity; congruence. }
  rewrite Hs. simpl negb. cbv iota beta.
  change (negb (10 =? 0) && ((10 <? 2) || (36 <? 10))) with false.
  change ((10 =? 0) || (10 =? 16)) with false. cbv iota beta.
  change (if 10 =? 0 then 10 else 10) with 10.
  destruct (digits_prefix 10 (String c r)) eqn:Ed; [congruence |].
  rewrite Hm'. destruct neg; reflexivity.
Qed.

(** [parseInt] reads back the decimal numeral of every integer. *)
Lemma parseInt_decimal (z : Z) : parseInt (decimal z) 10 = of_Z z.
Proof.
  destruct z as [| p | p]; unfold decimal; simpl Z.to_int.
  - reflexivity.
  - apply (parseInt_numeral false p).
  - apply (parseInt_numeral true p).
Qed.

(** [parseInt] yields [NaN], a zero or a non-zero integer. *)
Lemma parseInt_cases (s : string) (radix : Z) :
  parseInt s radix = NaN \/ parseInt s radix = NegZero \/
  exists m, parseInt s radix = of_Z m.
Proof.
  unfold parseInt.
  destruct (strip_sign (trim_start s)) as [neg body].
  destruct (negb (radix =? 0) && ((radix <? 2) || (36 <? radix))); [now left |].
  destruct (if (radix =? 0) || (radix =? 16) then strip_hex_prefix body else None);
    cbv iota beta;
    match goal with |- context [digits_prefix ?R ?b] => destruct (digits_prefix R b) end;
    try (now left);
    match goal with |- context [math_int ?R ?l =? 0] => destruct (math_int R l =? 0) end;
    try (right; right; eexists; reflexivity);
    destruct neg; [right; left; reflexivity | right; right; exists 0; reflexivity
                  | right; left; reflexivity | right; right; exists 0; reflexivity].
Qed.

Lemma decimal_not_empty (z : Z) : String.eqb (decimal z) "" = false.
Proof.
  destruct z as [| p | p]; try reflexivity.
  unfold decimal; simpl.
  destruct (numeral_not_blank p) as (c & r & E & _). now rewrite E.
Qed.

(** A supplied decimal numeral is the argument of [parseInt]. *)
Lemma q_or_decimal (z : Z) (d : string) :
  ToString (q_or (Some (QStr (decimal z))) d) = decimal z.
Proof. unfold q_or, q_truthy. now rewrite decimal_not_empty. Qed.

Lemma Math_max_one_cases (x : number) :
  x = NegZero \/ (exists m, x = of_Z m /\ m < 1) -> Math_max (of_Z 1) x = of_Z 1.
Proof.
  intros [-> | (m & -> & Hm)]; [reflexivity |].
  rewrite Math_max_of_Z. f_equal. lia.
Qed.

(** ** The list operation: page and limit *)

Section ListRequest.

Import Controller.

(** C9: a list request without a page parameter uses page 1, and a list
    request without a limit parameter uses limit 25. *)
Theorem getAll_defaults (req : Request) :
  (q_lookup "page" (req_query req) = None -> getAll_page req = of_Z 1) /\
  (q_lookup "limit" (req_query req) = None -> getAll_limit req = of_Z 25).
Proof.
  unfold getAll_page, getAll_limit.
  split; intros ->; reflexivity.
Qed.

Lemma getAll_defaults_witness :
  getAll_page Sample.search_only = of_Z 1 /\ getAll_limit Sample.search_only = of_Z 25.
Proof.
  split; [apply (proj1 (getAll_defaults Sample.search_only))
         | apply (proj2 (getAll_defaults Sample.search_only))];
    reflexivity.
Defined.

(** The numbers [parseInt] reads from the page and the limit parameters. *)
Lemma getAll_page_parsed (req : Request) (n : Z) :
  parseInt (ToString (q_or (q_lookup "page" (req_query req)) "1")) 10 = of_Z n ->
  getAll_page req = of_Z (Z.max 1 n).
Proof. unfold getAll_page. intros ->. apply Math_max_of_Z. Qed.

Lemma getAll_limit_parsed (req : Request) (n : Z) :
  parseInt (ToString (q_or (q_lookup "limit" (req_query req)) "25")) 10 = of_Z n ->
  getAll_limit req = of_Z (Z.min 100 n).
Proof. unfold getAll_limit. intros ->. apply Math_min_of_Z. Qed.

Lemma page_decimal_parsed (req : Request) (n : Z) :
  q_lookup "page" (req_query req) = Some (QStr (decimal n)) ->
  parseInt (ToString (q_or (q_lookup "page" (req_query req)) "1")) 10 = of_Z n.
Proof. intros ->. now rewrite q_or_decimal, parseInt_decimal. Qed.

Lemma limit_decimal_parsed (req : Request) (n : Z) :
  q_lookup "limit" (req_query req) = Some (QStr (decimal n)) ->
  parseInt (ToString (q_or (q_lookup "limit" (req_query req)) "25")) 10 = of_Z n.
Proof. intros ->. now rewrite q_or_decimal, parseInt_decimal. Qed.



(** C1, as stated, fails: a limit of 0 is used as it is, not raised to 1. *)
Lemma limit_zero_not_raised :
  getAll_limit Sample.limit_0 = of_Z 0 /\ ~ limit_in_range Sample.limit_0.
Proof.
  split; [reflexivity |].
  intros (l & Hl & Hrange).
  assert (E : getAll_limit Sample.limit_0 = of_Z 0) by reflexivity.
  rewrite E in Hl. injection Hl as Hl. lia.
Qed.

(** C1, amended: for an integer limit parameter the effective limit is a
    number of at most 100; a limit above 100 is lowered to 100 and a limit
    from 1 to 100 is used as supplied. *)
Theorem getAll_limit_capped (req : Request) (n : Z) :
  q_lookup "limit" (req_query req) = Some (QStr (decimal n)) ->
  (getAll_limit req <> NaN /\ Num.compare (getAll_limit req) (of_Z 100) <> Gt) /\
  (100 < n -> getAll_limit req = of_Z 100) /\
  (1 <= n <= 100 -> getAll_limit req = of_Z n /\ limit_in_range req).
Proof.
  intros Hq.
  assert (E : getAll_limit req = of_Z (Z.min 100 n)).
  { apply getAll_limit_parsed, limit_decimal_parsed, Hq. }
  split; [| split].
  - rewrite E. split; [discriminate |].
    rewrite compare_of_Z, Z.compare_gt_iff. lia.
  - intros Hn. rewrite E. f_equal. lia.
  - intros Hn.
    assert (E' : getAll_limit req = of_Z n) by (rewrite E; f_equal; lia).
    split; [exact E' |]. exists n. split; [exact E' | lia].
Qed.

Lemma getAll_limit_capped_witness :
  getAll_limit Sample.limit_40 = of_Z 40 /\ limit_in_range Sample.limit_40.
Proof.
  apply (proj2 (proj2 (getAll_limit_capped Sample.limit_40 40 eq_refl))). lia.
Defined.

End ListRequest.

(** ** Properties of objects *)

Lemma get_set_same (k : string) (v : jsval) (d : Document) :
  get_prop k (set_prop k v d) = v.
Proof.
  induction d as [| [k' v'] d IH]; simpl.
  - now rewrite String.eqb_refl.
  - destruct (String.eqb k k') eqn:E; simpl.
    + now rewrite String.eqb_refl.
    + now rewrite E.
Qed.

Lemma get_set_other (k k' : string) (v : jsval) (d : Document) :
  k <> k' -> get_prop k (set_prop k' v d) = get_prop k d.
Proof.
  intros Hne.
  assert (Hkk : String.eqb k k' = false) by now apply String.eqb_neq.
  induction d as [| [k0 v0] d IH]; simpl.
  - now rewrite Hkk.
  - destruct (String.eqb k' k0) eqn:E; simpl.
    + apply String.eqb_eq in E. subst k0. now rewrite Hkk.
    + now rewrite IH.
Qed.

(** Writing a string a property holds already changes nothing. *)
Lemma set_get_string (k x : string) (d : Document) :
  get_prop k d = JStr x -> set_prop k (JStr x) d = d.
Proof.
  induction d as [| [k' v'] d IH]; simpl; [discriminate |].
  destruct (String.eqb k k') eqn:E.
  - apply String.eqb_eq in E. now intros ->; subst.
  - intros H. now rewrite IH.
Qed.

Lemma toggled_active (d : Document) :
  get_prop "active" (toggled d) = JBool (negb (truthy (get_prop "active" d))).
Proof. apply get_set_same. Qed.

Lemma toggled_id (d : Document) : get_prop "_id" (toggled d) = get_prop "_id" d.
Proof. now apply get_set_other. Qed.

(** ** The model kept in memory meets the contract *)

Section MemLawful.

Import Mem.

Variable valid : Document -> bool.
Variable matches : jsval -> Document -> bool.

Lemma stored_lookup (s : MemStore) (k : string) :
  stored s !! k = set_prop "_id" (JStr k) <$> records s !! k.
Proof.
  unfold stored. rewrite map_lookup_imap. now destruct (records s !! k).
Qed.

Lemma valid_id_string (k k' : string) : valid_id (JStr k) = Some k' -> k' = k.
Proof.
  unfold valid_id.
  destruct ((Z.of_nat (String.length k) =? 24) && forallb is_hex (list_ascii_of_string k));
    congruence.
Qed.

Lemma stored_insert (s : MemStore) (k : string) (d : Document) (n : Z) :
  get_prop "_id" d = JStr k ->
  stored {| records := <[k := d]> (records s); counter := n |} = <[k := d]> (stored s).
Proof.
  intros Hid. apply map_eq. intros j.
  rewrite stored_lookup. simpl.
  destruct (decide (k = j)) as [<- | Hne].
  - rewrite !lookup_insert_eq. simpl. now rewrite set_get_string.
  - rewrite !lookup_insert_ne by done. now rewrite stored_lookup.
Qed.

Lemma stored_delete (s : MemStore) (k : string) (n : Z) :
  stored {| records := delete k (records s); counter := n |} = delete k (stored s).
Proof.
  apply map_eq. intros j. rewrite stored_lookup. simpl.
  destruct (decide (k = j)) as [<- | Hne].
  - now rewrite !lookup_delete_eq.
  - rewrite !lookup_delete_ne by done. now rewrite stored_lookup.
Qed.

#[export] Instance MemModel_lawful : Lawful (MemModel valid matches) stored.
Proof.
  split.
  - intros s k d. rewrite stored_lookup.
    destruct (records s !! k); simpl; [| discriminate].
    intros [= <-]. apply get_set_same.
  - intros s k r. simpl. unfold mem_findById.
    destruct (valid_id (JStr k)) as [k' |] eqn:E; [| discriminate].
    apply valid_id_string in E. subst k'. now intros [= <-].
  - intros s s' k payload opts r. simpl. unfold mem_findByIdAndUpdate.
    destruct (valid_id (JStr k)) as [k' |] eqn:E.
    + apply valid_id_string in E. subst k'. intros H Hnone. rewrite Hnone in H.
      destruct payload; try discriminate. now injection H as <- <-.
    + destruct payload; discriminate.
  - intros s s' k r. simpl. unfold mem_findByIdAndDelete.
    destruct (valid_id (JStr k)) as [k' |] eqn:E; [| discriminate].
    apply valid_id_string in E. subst k'. intros [= <- <-].
    split; [reflexivity | apply stored_delete].
  - intros s s' payload d. simpl. unfold mem_construct.
    destruct payload; try discriminate. intros [= <- <-].
    split; [| reflexivity]. eexists. apply get_set_same.
  - intros s s' k d d' Hid. simpl. unfold mem_save. rewrite Hid.
    destruct (valid d); [| discriminate]. intros [= <- <-].
    split; [exact Hid |]. split; [tauto |]. now apply stored_insert.
Qed.

End MemLawful.

(** ** The list operation: the number of pages *)

Lemma is_zero_of_Z (z : Z) : is_zero (of_Z z) = (z =? 0).
Proof.
  unfold is_zero, of_Z, Qeq_bool, inject_Z. simpl. rewrite Z.mul_1_r.
  destruct z; reflexivity.
Qed.

Lemma negative_of_Z (z : Z) : negative (of_Z z) = (z <? 0).
Proof.
  unfold negative, of_Z, Qcompare, inject_Z. simpl. rewrite Z.mul_1_r.
  unfold Z.ltb. destruct z; reflexivity.
Qed.

(** The ceiling of a quotient of integers is the least multiple count. *)
Lemma Qceiling_quotient (t l : Z) :
  0 < l ->
  l * (Qceiling (inject_Z t / inject_Z l) - 1) < t <= l * Qceiling (inject_Z t / inject_Z l).
Proof.
  intros Hl.
  set (q := (inject_Z t / inject_Z l)%Q).
  assert (Hl' : (0 < inject_Z l)%Q)
    by (change 0%Q with (inject_Z 0); rewrite <- Zlt_Qlt; exact Hl).
  assert (Hq : (q * inject_Z l == inject_Z t)%Q).
  { unfold q. field. intros H0. rewrite H0 in Hl'. now apply Qlt_irrefl in Hl'. }
  pose proof (Qceiling_lt q) as Hlo.
  pose proof (Qle_ceiling q) as Hhi.
  apply (Qmult_lt_r _ _ (inject_Z l) Hl') in Hlo.
  apply (Qmult_le_r _ _ (inject_Z l) Hl') in Hhi.
  rewrite Hq, <- inject_Z_mult in Hlo, Hhi.
  rewrite <- Zlt_Qlt in Hlo. rewrite <- Zle_Qle in Hhi. lia.
Qed.

Lemma ceil_div_of_Z (t l : Z) :
  0 <= t -> 0 < l ->
  exists p, Math_ceil (div (of_Z t) (of_Z l)) = of_Z p /\ l * (p - 1) < t <= l * p.
Proof.
  intros Ht Hl. unfold div.
  change (is_NaN (of_Z t) || is_NaN (of_Z l)) with false.
  change (is_infinite (of_Z t)) with false.
  change (is_infinite (of_Z l)) with false. cbv iota.
  rewrite !is_zero_of_Z, !negative_of_Z.
  replace (l =? 0) with false by (symmetry; apply Z.eqb_neq; lia).
  replace (l <? 0) with false by (symmetry; apply Z.ltb_ge; lia).
  replace (t <? 0) with false by (symmetry; apply Z.ltb_ge; lia).
  destruct (t =? 0) eqn:E.
  - apply Z.eqb_eq in E. subst t. exists 0. split; [reflexivity | lia].
  - apply Z.eqb_neq in E.
    pose proof (Qceiling_quotient t l Hl) as Hc.
    exists (Qceiling (inject_Z t / inject_Z l)). split; [| exact Hc].
    unfold Math_ceil. change (value (of_Z t)) with (inject_Z t).
    change (value (of_Z l)) with (inject_Z l).
    rewrite (Qceiling_comp _ _ (Qred_correct _)).
    replace (Qceiling (inject_Z t / inject_Z l) =? 0) with false; [reflexivity |].
    symmetry. apply Z.eqb_neq. nia.
Qed.

Lemma positive_limit_is_integer (req : Request) :
  positive_number (Controller.getAll_limit req) ->
  exists l, Controller.getAll_limit req = of_Z l /\ 1 <= l <= 100.
Proof.
  unfold positive_number, Controller.getAll_limit.
  destruct (parseInt_cases
              (ToString (q_or (q_lookup "limit" (req_query req)) "25")) 10)
    as [-> | [-> | (m & ->)]]; try discriminate.
  rewrite Math_min_of_Z, compare_of_Z. intros H.
  rewrite Z.compare_lt_iff in H. exists (Z.min 100 m). split; [reflexivity | lia].
Qed.

Section ListPages.

Import Controller.

Context {Store : Type}.
Variable Model : ModelOps Store.

Lemma getAll_responds (req : Request) (s : Store) (total : number)
    (items : list Document) :
  countDocuments Model (getAll_filter req) s = Ret total ->
  find Model (getAll_filter req) (getAll_skip req) (getAll_limit req) s = Ret items ->
  serve (getAll (createController Model)) req s = responded 200 (list_body req total items) s.
Proof.
  intros Hc Hf.
  unfold serve, createController, asyncHandler, getAll, getAll_fn, mbind, action_bind,
    await_read, json, fresh_world; simpl.
  rewrite Hc, Hf. reflexivity.
Qed.

(** The response reports the page and the limit that the query was given. *)
Lemma getAll_meta (req : Request) (s : Store) (total : number)
    (items : list Document) :
  countDocuments Model (getAll_filter req) s = Ret total ->
  find Model (getAll_filter req) (getAll_skip req) (getAll_limit req) s = Ret items ->
  field "page" (field "meta" (body_sent (serve (getAll (createController Model)) req s)))
  = JNum (getAll_page req) /\
  field "limit" (field "meta" (body_sent (serve (getAll (createController Model)) req s)))
  = JNum (getAll_limit req) /\
  field "total" (field "meta" (body_sent (serve (getAll (createController Model)) req s)))
  = JNum total.
Proof.
  intros Hc Hf. rewrite (getAll_responds req s total items Hc Hf).
  repeat split; reflexivity.
Qed.

(** C3: for a non-negative total and a positive effective limit, the
    [pages] of the response's pagination metadata is the ceiling of the
    total divided by the limit.  The total is a safe integer: up to 2^53
    the quotient that binary64 computes has the exact ceiling.  The page
    and limit parameters are absent, strings or arrays of strings, so that
    the request has an effective page and limit. *)
Theorem getAll_pages (req : Request) (s : Store) (t : Z) (items : list Document) :
  0 <= t ->
  safe_integer t ->
  plain (q_lookup "page" (req_query req)) ->
  plain (q_lookup "limit" (req_query req)) ->
  countDocuments Model (getAll_filter req) s = Ret (of_Z t) ->
  find Model (getAll_filter req) (getAll_skip req) (getAll_limit req) s = Ret items ->
  positive_number (getAll_limit req) ->
  exists l p,
    getAll_limit req = of_Z l /\ 1 <= l <= 100 /\
    l * (p - 1) < t <= l * p /\ p = (t + l - 1) / l /\
    field "pages" (field "meta" (body_sent (serve (getAll (createController Model)) req s)))
    = JNum (of_Z p).
Proof.
  intros Ht _ _ _ Hc Hf Hpos.
  destruct (positive_limit_is_integer req Hpos) as (l & Hl & Hrange).
  assert (Hl0 : 0 < l) by lia.
  destruct (ceil_div_of_Z t l Ht Hl0) as (p & Hp & Hceil).
  exists l, p. repeat split; try tauto; try lia.
  - apply (Z.div_unique _ _ _ (t + l - 1 - l * p)); lia.
  - rewrite (getAll_responds req s _ items Hc Hf).
    unfold body_sent, responded, list_body, field; simpl.
    now rewrite Hl, Hp.
Qed.

End ListPages.

Lemma getAll_pages_witness :
  exists l p,
    Controller.getAll_limit Sample.limit_40 = of_Z l /\ 1 <= l <= 100 /\
    l * (p - 1) < 1 <= l * p /\ p = (1 + l - 1) / l /\
    field "pages"
      (field "meta"
         (body_sent (serve (Controller.getAll (Controller.createController Sample.Flights))
                       Sample.limit_40 (Sample.store_of Sample.flight))))
    = JNum (of_Z p).
Proof.
  apply (getAll_pages Sample.Flights Sample.limit_40 (Sample.store_of Sample.flight)
           1 [Sample.flight]).
  - lia.
  - unfold safe_integer. lia.
  - exact I.
  - exact I.
  - reflexivity.
  - reflexivity.
  - reflexivity.
Defined.

(** ** The handlers against a lawful model *)

Ltac run_handler :=
  unfold serve, Controller.createController, Controller.asyncHandler,
    Controller.create_fn, Controller.getById_fn, Controller.update_fn,
    Controller.remove_fn, Controller.toggleFlag_fn,
    mbind, action_bind, await, await_read, status, json,
    fresh_world, responded, with_db, found_body, deleted_body, errors_body;
  simpl.

Section Handlers.

Import Controller.

Context {Store : Type}.
Variable Model : ModelOps Store.
Variable stored : Store -> gmap string Document.
Context {L : Lawful Model stored}.

Local Abbreviation c := (createController Model).

(** C4: for an identifier that resolves to no stored record, [update],
    [remove] and [toggleFlag] respond with 404 and the not-found body, and
    the stored collection is left as it was. *)
Theorem not_found_unchanged (req : Request) (k : string) (s : Store) :
  param "id" req = JStr k ->
  stored s !! k = None ->
  (forall r s',
      findByIdAndUpdate Model (JStr k) (req_body req) update_options s = (Ret r, s') ->
      serve (update c) req s = responded 404 not_found s' /\ stored s' = stored s) /\
  (forall r s',
      findByIdAndDelete Model (JStr k) s = (Ret r, s') ->
      serve (remove c) req s = responded 404 not_found s' /\ stored s' = stored s) /\
  (forall r,
      findById Model (JStr k) s = Ret r ->
      serve (toggleFlag c) req s = responded 404 not_found s).
Proof.
  intros Hid Hnone. repeat split.
  - destruct (update_absent s s' k _ _ r H Hnone) as [-> _].
    run_handler. rewrite Hid. unfold update_options in H. now rewrite H.
  - now destruct (update_absent s s' k _ _ r H Hnone).
  - destruct (delete_returns s s' k r H) as [Hr _]. rewrite Hnone in Hr. subst r.
    run_handler. rewrite Hid. now rewrite H.
  - destruct (delete_returns s s' k r H) as [_ ->]. now apply delete_id.
  - intros r H. pose proof (findById_returns s k r H) as Hr. rewrite Hnone in Hr.
    subst r. run_handler. rewrite Hid. now rewrite H.
Qed.

(** C7: after [remove] of a stored record, [getById] with the same
    identifier responds with 404 and the not-found body. *)
Theorem remove_then_getById (req : Request) (k : string) (d : Document)
    (s s1 : Store) (r r1 : option Document) :
  param "id" req = JStr k ->
  stored s !! k = Some d ->
  findByIdAndDelete Model (JStr k) s = (Ret r, s1) ->
  findById Model (JStr k) s1 = Ret r1 ->
  serve (remove c) req s = responded 200 deleted_body s1 /\
  serve (getById c) req (db (serve (remove c) req s)) = responded 404 not_found s1.
Proof.
  intros Hid Hd Hdel Hget.
  destruct (delete_returns s s1 k r Hdel) as [Hr Hs1]. rewrite Hd in Hr. subst r.
  pose proof (findById_returns s1 k r1 Hget) as Hr1.
  rewrite Hs1, lookup_delete_eq in Hr1. subst r1.
  assert (Hrm : serve (remove c) req s = responded 200 deleted_body s1).
  { run_handler. rewrite Hid. now rewrite Hdel. }
  split; [exact Hrm |]. rewrite Hrm.
  run_handler. rewrite Hid. now rewrite Hget.
Qed.

(** What one [toggleFlag] does to a stored record when its calls return. *)
Lemma toggleFlag_saves (req : Request) (k : string) (d d1 : Document)
    (s s1 : Store) (r : option Document) :
  param "id" req = JStr k ->
  stored s !! k = Some d ->
  findById Model (JStr k) s = Ret r ->
  save Model (toggled d) s = (Ret d1, s1) ->
  serve (toggleFlag c) req s = responded 200 (found_body d1) s1 /\
  stored s1 !! k = Some d1 /\
  get_prop "active" d1 = JBool (negb (truthy (get_prop "active" d))).
Proof.
  intros Hid Hd Hget Hsave.
  pose proof (findById_returns s k r Hget) as Hr. rewrite Hd in Hr. subst r.
  assert (Hk : get_prop "_id" (toggled d) = JStr k).
  { rewrite toggled_id. now apply (stored_id s). }
  destruct (save_returns s s1 k _ d1 Hk Hsave) as (_ & Hact & Hs1).
  split; [| split].
  - run_handler. rewrite Hid, Hget. unfold toggled in Hsave. simpl.
    now rewrite Hsave.
  - rewrite Hs1. apply lookup_insert_eq.
  - apply Hact, toggled_active.
Qed.

(** C8, amended: two [toggleFlag] in succession on a stored record leave
    its [active] at the truth value of the original; a boolean [active] is
    back at its original value. *)
Theorem toggleFlag_twice (req : Request) (k : string) (d d1 d2 : Document)
    (s s1 s2 : Store) (r r1 : option Document) :
  param "id" req = JStr k ->
  stored s !! k = Some d ->
  findById Model (JStr k) s = Ret r ->
  save Model (toggled d) s = (Ret d1, s1) ->
  findById Model (JStr k) s1 = Ret r1 ->
  save Model (toggled d1) s1 = (Ret d2, s2) ->
  serve (toggleFlag c) req (db (serve (toggleFlag c) req s))
  = responded 200 (found_body d2) s2 /\
  stored s2 !! k = Some d2 /\
  get_prop "active" d2 = JBool (truthy (get_prop "active" d)) /\
  (forall b, get_prop "active" d = JBool b -> get_prop "active" d2 = get_prop "active" d).
Proof.
  intros Hid Hd Hget Hsave Hget1 Hsave1.
  destruct (toggleFlag_saves req k d d1 s s1 r Hid Hd Hget Hsave) as (Hw1 & Hd1 & Ha1).
  destruct (toggleFlag_saves req k d1 d2 s1 s2 r1 Hid Hd1 Hget1 Hsave1)
    as (Hw2 & Hd2 & Ha2).
  assert (Ha : get_prop "active" d2 = JBool (truthy (get_prop "active" d))).
  { rewrite Ha2, Ha1. simpl. now rewrite negb_involutive. }
  rewrite Hw1. simpl. repeat split; try assumption.
  intros b Hb. rewrite Ha, Hb. reflexivity.
Qed.

(** C10: on a stored record whose [active] is absent or undefined,
    [toggleFlag] saves the record with [active] set to [true]; it responds
    with the saved record, or hands the error of the save to [next]. *)
Theorem toggleFlag_absent_flag (req : Request) (k : string) (d : Document)
    (s : Store) (r : option Document) :
  param "id" req = JStr k ->
  stored s !! k = Some d ->
  get_prop "active" d = JUndefined ->
  findById Model (JStr k) s = Ret r ->
  toggled d = set_prop "active" (JBool true) d /\
  match save Model (set_prop "active" (JBool true) d) s with
  | (Ret d1, s1) =>
      serve (toggleFlag c) req s = responded 200 (found_body d1) s1 /\
      get_prop "active" d1 = JBool true /\
      stored s1 !! k = Some d1
  | (Throw e, s1) =>
      serve (toggleFlag c) req s
      = {| db := s1; res := fresh_response; forwarded := [e] |}
  end.
Proof.
  intros Hid Hd Hact Hget.
  assert (Ht : toggled d = set_prop "active" (JBool true) d).
  { unfold toggled. now rewrite Hact. }
  split; [exact Ht |].
  destruct (save Model (set_prop "active" (JBool true) d) s) as [[d1 | e] s1] eqn:Hsave.
  - rewrite <- Ht in Hsave.
    destruct (toggleFlag_saves req k d d1 s s1 r Hid Hd Hget Hsave) as (Hw & Hs & Ha).
    rewrite Hact in Ha. now repeat split.
  - pose proof (findById_returns s k r Hget) as Hr. rewrite Hd in Hr. subst r.
    run_handler. rewrite Hid, Hget, Hact. simpl. now rewrite Hsave.
Qed.

(** C5: [create] answers a request that failed validation with 400 and the
    list of failures, and persists nothing; otherwise it constructs and saves
    a record and answers 201 with the stored representation. *)
Theorem create_validates (req : Request) (s : Store) :
  (req_validation req <> [] ->
   serve (create c) req s = responded 400 (errors_body (req_validation req)) s) /\
  (req_validation req = [] ->
   forall d s1 d' s2,
     construct Model (req_body req) s = (Ret d, s1) ->
     save Model d s1 = (Ret d', s2) ->
     serve (create c) req s = responded 201 (found_body d') s2 /\
     exists k, get_prop "_id" d' = JStr k /\ stored s2 = <[k := d']> (stored s)).
Proof.
  split.
  - intros Hne. run_handler.
    unfold validationResult, isEmpty, array; simpl.
    destruct (req_validation req); [congruence | reflexivity].
  - intros Hnil d s1 d' s2 Hnew Hsave.
    destruct (construct_returns s s1 _ d Hnew) as [[k Hk] Hs1].
    destruct (save_returns s1 s2 k d d' Hk Hsave) as (Hk' & _ & Hs2).
    split.
    + run_handler. unfold validationResult, isEmpty; simpl.
      rewrite Hnil. simpl. rewrite Hnew. simpl. now rewrite Hsave.
    + exists k. split; [exact Hk' |]. now rewrite Hs2, Hs1.
Qed.

End Handlers.

(** ** Errors of the persistence layer *)

Section Errors.

Import Controller.

Context {Store : Type}.
Variable Model : ModelOps Store.

Local Abbreviation c := (createController Model).


End Errors.

(** ** The theorems at the model kept in memory *)

Section Witnesses.

Import Controller Sample.

Local Abbreviation c := (createController Flights).

Lemma not_found_unchanged_witness :
  serve (update c) by_id empty_store = responded 404 not_found empty_store /\
  serve (remove c) by_id empty_store = responded 404 not_found empty_store /\
  serve (toggleFlag c) by_id empty_store = responded 404 not_found empty_store.
Proof.
  destruct (not_found_unchanged Flights Mem.stored by_id flight_id empty_store
              eq_refl eq_refl) as (Hupd & Hdel & Htog).
  split; [| split].
  - apply (Hupd None empty_store). reflexivity.
  - apply (Hdel None empty_store). reflexivity.
  - apply (Htog None). reflexivity.
Defined.

Lemma remove_then_getById_witness :
  serve (remove c) by_id (store_of flight) = responded 200 deleted_body empty_store /\
  serve (getById c) by_id (db (serve (remove c) by_id (store_of flight)))
  = responded 404 not_found empty_store.
Proof.
  apply (remove_then_getById Flights Mem.stored by_id flight_id flight
           (store_of flight) empty_store (Some flight) None);
    reflexivity.
Defined.

(** C8, as stated, fails: a record without [active] ends with [active]
    false after two toggles. *)
Lemma toggleFlag_twice_absent_flag :
  active_of (Mem.stored (store_of flight)) flight_id = Some JUndefined /\
  active_of (Mem.stored (db (serve (toggleFlag c) by_id
                               (db (serve (toggleFlag c) by_id (store_of flight))))))
            flight_id
  = Some (JBool false) /\
  ~ toggle_twice_restores Flights Mem.stored by_id flight_id (store_of flight).
Proof.
  split; [reflexivity |]. split; [reflexivity |].
  unfold toggle_twice_restores. intros H.
  assert (E : Some (JBool false) = Some JUndefined) by exact H.
  discriminate E.
Qed.

Lemma toggleFlag_twice_witness :
  serve (toggleFlag c) by_id (db (serve (toggleFlag c) by_id (store_of flight_on)))
  = responded 200 (found_body flight_on) (store_of flight_on) /\
  Mem.stored (store_of flight_on) !! flight_id = Some flight_on /\
  get_prop "active" flight_on = JBool (truthy (get_prop "active" flight_on)) /\
  (forall b, get_prop "active" flight_on = JBool b ->
             get_prop "active" flight_on = get_prop "active" flight_on).
Proof.
  apply (toggleFlag_twice Flights Mem.stored by_id flight_id
           flight_on (toggled flight_on) flight_on
           (store_of flight_on) (store_of (toggled flight_on)) (store_of flight_on)
           (Some flight_on) (Some (toggled flight_on)));
    reflexivity.
Defined.

Lemma toggleFlag_absent_flag_witness :
  serve (toggleFlag c) by_id (store_of flight)
  = responded 200 (found_body (toggled flight)) (store_of (toggled flight)) /\
  get_prop "active" (toggled flight) = JBool true /\
  Mem.stored (store_of (toggled flight)) !! flight_id = Some (toggled flight).
Proof.
  apply (proj2 (toggleFlag_absent_flag Flights Mem.stored by_id flight_id flight
                  (store_of flight) (Some flight) eq_refl eq_refl eq_refl eq_refl)).
Defined.

Lemma create_validates_witness :
  serve (create c) rejected_flight empty_store
  = responded 400 (errors_body (req_validation rejected_flight)) empty_store /\
  serve (create c) new_flight empty_store
  = responded 201 (found_body created) created_store /\
  exists k, get_prop "_id" created = JStr k /\
            Mem.stored created_store = <[k := created]> (Mem.stored empty_store).
Proof.
  split.
  - apply (proj1 (create_validates Flights Mem.stored rejected_flight empty_store)).
    discriminate.
  - apply (proj2 (create_validates Flights Mem.stored new_flight empty_store) eq_refl
             created {| Mem.records := ∅; Mem.counter := 2 |} created created_store);
      reflexivity.
Defined.


End Witnesses.
(** ** More on numbers and [parseInt] *)

Lemma sub_of_Z (a b : Z) : sub (of_Z a) (of_Z b) = of_Z (a - b).
Proof.
  unfold sub, of_Z. simpl value. f_equal.
  rewrite <- (inject_Z_Qred (a - b)). apply Qred_complete.
  unfold Z.sub. rewrite inject_Z_plus, inject_Z_opp. reflexivity.
Qed.

Lemma mul_of_Z (a b : Z) :
  0 <= a -> 0 <= b -> mul (of_Z a) (of_Z b) = of_Z (a * b).
Proof.
  intros Ha Hb. unfold mul.
  change (is_NaN (of_Z a) || is_NaN (of_Z b)) with false.
  change (is_infinite (of_Z a) || is_infinite (of_Z b)) with false. cbv iota.
  rewrite !is_zero_of_Z, !negative_of_Z.
  replace (a <? 0) with false by (symmetry; apply Z.ltb_ge; lia).
  replace (b <? 0) with false by (symmetry; apply Z.ltb_ge; lia).
  destruct (a =? 0) eqn:Ea; [apply Z.eqb_eq in Ea; subst a; reflexivity |].
  destruct (b =? 0) eqn:Eb.
  { apply Z.eqb_eq in Eb. subst b. simpl. now rewrite Z.mul_0_r. }
  simpl. unfold of_Z. f_equal.
  rewrite <- (inject_Z_Qred (a * b)). apply Qred_complete.
  now rewrite inject_Z_mult.
Qed.

Lemma digits_of_numeral_then (d : Decimal.uint) (tail : string) :
  digits_prefix 10 (String.append (NilEmpty.string_of_uint d) tail)
  = udigits d ++ digits_prefix 10 tail.
Proof.
  induction d; simpl; try reflexivity; unfold digit_value; simpl; now rewrite IHd.
Qed.

(** [parseInt] stops at the first code unit that is no digit. *)
Lemma parseInt_numeral_then (neg : bool) (p : positive) (tail : string) :
  digits_prefix 10 tail = [] ->
  parseInt (String.append (if neg then "-" else "")
              (String.append (NilZero.string_of_uint (Pos.to_uint p)) tail)) 10
  = of_Z (if neg then Z.neg p else Z.pos p).
Proof.
  intros Htail.
  destruct (numeral_not_blank p) as (c & r & E & Hw & Hm & Hp).
  assert (Hm' : math_int 10 (digits_prefix 10 (String.append (String c r) tail))
                = Z.pos p).
  { rewrite <- E, numeral_of_positive, digits_of_numeral_then, Htail, app_nil_r,
      math_int_numeral, Unsigned.of_to. reflexivity. }
  rewrite E. unfold parseInt.
  assert (Hs : strip_sign (trim_start (String.append (if neg then "-" else "")
                                         (String.append (String c r) tail)))
               = (neg, String.append (String c r) tail)).
  { destruct neg; simpl.
    - reflexivity.
    - rewrite Hw. unfold strip_sign.
      destruct c as [[] [] [] [] [] [] [] []]; try reflexivity; congruence. }
  rewrite Hs. simpl negb. cbv iota beta.
  change (negb (10 =? 0) && ((10 <? 2) || (36 <? 10))) with false.
  change ((10 =? 0) || (10 =? 16)) with false. cbv iota beta.
  change (if 10 =? 0 then 10 else 10) with 10.
  destruct (digits_prefix 10 (String.append (String c r) tail)) eqn:Ed.
  { discriminate Hm'. }
  rewrite Hm'. destruct neg; reflexivity.
Qed.

Lemma parseInt_decimal_then (z : Z) (tail : string) :
  digits_prefix 10 tail = [] ->
  parseInt (String.append (decimal z) tail) 10 = of_Z z.
Proof.
  intros Htail. destruct z as [| p | p]; unfold decimal; simpl Z.to_int.
  - unfold parseInt. simpl. change (String.append "" tail) with tail.
    now rewrite Htail.
  - apply (parseInt_numeral_then false p tail Htail).
  - apply (parseInt_numeral_then true p tail Htail).
Qed.

(** A string that starts with a letter holds no numeral. *)
Lemma parseInt_letter (c : ascii) (r : string) (d : Z) :
  digit_value c = Some d -> 10 <= d -> parseInt (String c r) 10 = NaN.
Proof.
  intros Hd Hge.
  assert (Hcode : (97 <= code c <= 122) \/ (65 <= code c <= 90)).
  { unfold digit_value in Hd.
    destruct ((48 <=? code c) && (code c <=? 57)) eqn:E1.
    { apply andb_true_iff in E1 as [A B]. apply Z.leb_le in A, B.
      injection Hd as <-. lia. }
    destruct ((97 <=? code c) && (code c <=? 122)) eqn:E2.
    { apply andb_true_iff in E2 as [A B]. apply Z.leb_le in A, B. left. lia. }
    destruct ((65 <=? code c) && (code c <=? 90)) eqn:E3; [| discriminate].
    apply andb_true_iff in E3 as [A B]. apply Z.leb_le in A, B. right. lia. }
  assert (Hw : is_white_space c = false).
  { unfold is_white_space.
    apply orb_false_iff; split; [apply orb_false_iff; split |].
    - apply andb_false_iff. right. apply Z.leb_gt. lia.
    - apply Z.eqb_neq. lia.
    - apply Z.eqb_neq. lia. }
  assert (Hsign : strip_sign (String c r) = (false, String c r)).
  { unfold strip_sign.
    destruct c as [[] [] [] [] [] [] [] []]; try reflexivity;
      exfalso; unfold code in Hcode; simpl in Hcode; lia. }
  unfold parseInt. simpl trim_start. rewrite Hw, Hsign. simpl.
  rewrite Hd. replace (d <? 10) with false by (symmetry; apply Z.ltb_ge; lia).
  reflexivity.
Qed.

Lemma append_empty (s : string) : String.append s "" = s.
Proof.
  induction s as [| c s IH]; [reflexivity |].
  change (String c (String.append s "") = String c s). now rewrite IH.
Qed.

(** The string of an array starts with the string of its first element,
    and what follows begins with a comma. *)
Lemma ToString_first (s : string) (rest : list qvalue) :
  exists tail, ToString (QArr (QStr s :: rest)) = String.append s tail
               /\ digits_prefix 10 tail = [].
Proof.
  destruct rest as [| v rest].
  - exists ""%string. simpl. now rewrite append_empty.
  - eexists. simpl. split; [reflexivity | reflexivity].
Qed.

Lemma not_numeric_parsed (v : qvalue) (d : string) :
  not_numeric v -> parseInt (ToString (q_or (Some v) d)) 10 = NaN.
Proof.
  destruct v as [s | items | fields]; simpl; try contradiction.
  destruct s as [| c r]; [contradiction |]. intros (x & Hx & Hge).
  unfold q_or, q_truthy. simpl. now apply (parseInt_letter c r x).
Qed.

Lemma mul_NaN_r (a : number) : mul a NaN = NaN.
Proof. unfold mul. now rewrite orb_true_r. Qed.

Lemma div_NaN_r (a : number) : div a NaN = NaN.
Proof. unfold div. now rewrite orb_true_r. Qed.

(** ** The list operation on every request *)

Section ListEdges.

Import Controller.

(** X1: for every list request the effective page is [NaN] or at least 1,
    and the effective limit is [NaN] or at most 100. *)
Theorem getAll_page_limit_ranges (req : Request) :
  (getAll_page req = NaN \/ Num.compare (getAll_page req) (of_Z 1) <> Lt) /\
  (getAll_limit req = NaN \/ Num.compare (getAll_limit req) (of_Z 100) <> Gt).
Proof.
  unfold getAll_page, getAll_limit. split.
  - destruct (parseInt_cases
                (ToString (q_or (q_lookup "page" (req_query req)) "1")) 10)
      as [-> | [-> | (m & ->)]].
    + now left.
    + right. discriminate.
    + right. rewrite Math_max_of_Z, compare_of_Z, Z.compare_lt_iff. lia.
  - destruct (parseInt_cases
                (ToString (q_or (q_lookup "limit" (req_query req)) "25")) 10)
      as [-> | [-> | (m & ->)]].
    + now left.
    + right. discriminate.
    + right. rewrite Math_min_of_Z, compare_of_Z, Z.compare_gt_iff. lia.
Qed.

(** X2: a page or limit parameter that is a string starting with a letter
    holds no numeral and is not replaced by the default: the page,
    respectively the limit, is [NaN], and so is the offset; with a [NaN]
    limit the page count of the response is [NaN] too.  The other of the
    two parameters is absent, a string or an array of strings. *)
Theorem getAll_not_a_number (req : Request) (v : qvalue) :
  not_numeric v ->
  (q_lookup "page" (req_query req) = Some v ->
   plain (q_lookup "limit" (req_query req)) ->
   getAll_page req = NaN /\ getAll_skip req = NaN) /\
  (q_lookup "limit" (req_query req) = Some v ->
   plain (q_lookup "page" (req_query req)) ->
   getAll_limit req = NaN /\ getAll_skip req = NaN /\
   forall total items,
     field "pages" (field "meta" (list_body req total items)) = JNum NaN).
Proof.
  intros Hv. split; intros Hq _.
  - assert (Hp : getAll_page req = NaN).
    { unfold getAll_page. now rewrite Hq, (not_numeric_parsed v "1" Hv). }
    split; [exact Hp |]. unfold getAll_skip. now rewrite Hp.
  - assert (Hl : getAll_limit req = NaN).
    { unfold getAll_limit. now rewrite Hq, (not_numeric_parsed v "25" Hv). }
    split; [exact Hl |]. split.
    + unfold getAll_skip. rewrite Hl. apply mul_NaN_r.
    + intros total items. unfold list_body, field. simpl.
      now rewrite Hl, div_NaN_r.
Qed.

Lemma getAll_not_a_number_witness :
  (getAll_page Cases.page_abc = NaN /\ getAll_skip Cases.page_abc = NaN) /\
  (getAll_limit Cases.limit_many = NaN /\ getAll_skip Cases.limit_many = NaN).
Proof.
  split.
  - apply (proj1 (getAll_not_a_number Cases.page_abc (QStr "abc")
                    (ex_intro _ 10 (conj eq_refl (Z.le_refl 10))))).
    + reflexivity.
    + exact I.
  - assert (Hn : not_numeric (QStr "many")).
    { exists 22. split; [reflexivity | lia]. }
    destruct (proj2 (getAll_not_a_number Cases.limit_many (QStr "many") Hn) eq_refl I)
      as (Hl & Hs & _).
    split; [exact Hl | exact Hs].
Defined.

(** X3: of a page or limit parameter that is given several times (an array
    of strings that starts with the numeral of a safe integer) the first
    value counts. *)
Theorem getAll_repeated_parameter (req : Request) (n : Z) (rest : list string) :
  safe_integer n ->
  (q_lookup "page" (req_query req)
   = Some (QArr (QStr (decimal n) :: List.map QStr rest)) ->
   getAll_page req = of_Z (Z.max 1 n)) /\
  (q_lookup "limit" (req_query req)
   = Some (QArr (QStr (decimal n) :: List.map QStr rest)) ->
   getAll_limit req = of_Z (Z.min 100 n)).
Proof.
  intros _.
  destruct (ToString_first (decimal n) (List.map QStr rest)) as (tail & Hs & Htail).
  split; intros Hq.
  - apply getAll_page_parsed. rewrite Hq. unfold q_or, q_truthy.
    rewrite Hs. now apply parseInt_decimal_then.
  - apply getAll_limit_parsed. rewrite Hq. unfold q_or, q_truthy.
    rewrite Hs. now apply parseInt_decimal_then.
Qed.

Lemma getAll_repeated_parameter_witness :
  getAll_page Cases.page_twice = of_Z 2 /\ getAll_limit Cases.limit_twice = of_Z 100.
Proof.
  split.
  - apply (proj1 (getAll_repeated_parameter Cases.page_twice 2 ["3"%string]
                    ltac:(unfold safe_integer; lia))).
    reflexivity.
  - apply (proj2 (getAll_repeated_parameter Cases.limit_twice 500 ["3"%string]
                    ltac:(unfold safe_integer; lia))).
    reflexivity.
Defined.

(** X4: a page or limit parameter that is the empty string is treated as
    absent (page 1, limit 25); a value whose string is not empty is parsed
    as it was given. *)
Theorem getAll_blank_parameter (req : Request) :
  (q_lookup "page" (req_query req) = Some (QStr "") -> getAll_page req = of_Z 1) /\
  (q_lookup "limit" (req_query req) = Some (QStr "") -> getAll_limit req = of_Z 25) /\
  (forall v d, ToString v <> ""%string -> q_or (Some v) d = v).
Proof.
  unfold getAll_page, getAll_limit.
  split; [| split]; try (intros ->; reflexivity).
  intros v d Hne. unfold q_or, q_truthy.
  destruct v as [s | |]; try reflexivity.
  destruct (String.eqb s "") eqn:E; [| reflexivity].
  apply String.eqb_eq in E. subst s. now contradiction Hne.
Qed.

Lemma getAll_blank_parameter_witness :
  getAll_page Cases.blank = of_Z 1 /\ getAll_limit Cases.blank = of_Z 25.
Proof.
  split.
  - apply (proj1 (getAll_blank_parameter Cases.blank)). reflexivity.
  - apply (proj1 (proj2 (getAll_blank_parameter Cases.blank))). reflexivity.
Defined.

(** X5: for an integer page parameter and an integer limit parameter of at
    least 1, within the safe integers, the offset [skip] is
    (page - 1) * limit over the clamped page and limit; it is not negative,
    and it is 0 on the first page. *)
Theorem getAll_skip_offset (req : Request) (n m : Z) :
  q_lookup "page" (req_query req) = Some (QStr (decimal n)) ->
  q_lookup "limit" (req_query req) = Some (QStr (decimal m)) ->
  1 <= m ->
  safe_integer n -> safe_integer m -> safe_integer ((Z.max 1 n - 1) * Z.min 100 m) ->
  getAll_skip req = of_Z ((Z.max 1 n - 1) * Z.min 100 m) /\
  0 <= (Z.max 1 n - 1) * Z.min 100 m /\
  (n <= 1 -> getAll_skip req = of_Z 0).
Proof.
  intros Hp Hl Hm _ _ _.
  assert (E : getAll_skip req = of_Z ((Z.max 1 n - 1) * Z.min 100 m)).
  { unfold getAll_skip.
    rewrite (getAll_page_parsed req n (page_decimal_parsed req n Hp)).
    rewrite (getAll_limit_parsed req m (limit_decimal_parsed req m Hl)).
    rewrite sub_of_Z. apply mul_of_Z; lia. }
  split; [exact E |]. split; [nia |].
  intros Hn. rewrite E. f_equal. replace (Z.max 1 n) with 1 by lia. lia.
Qed.

Lemma getAll_skip_offset_witness :
  getAll_skip Cases.page_3_limit_10 = of_Z 20.
Proof.
  apply (proj1 (getAll_skip_offset Cases.page_3_limit_10 3 10 eq_refl eq_refl
                  ltac:(lia) ltac:(unfold safe_integer; lia)
                  ltac:(unfold safe_integer; lia) ltac:(unfold safe_integer; lia))).
Defined.

End ListEdges.

Lemma getAll_skip_parsed (req : Request) (n m : Z) :
  q_lookup "page" (req_query req) = Some (QStr (decimal n)) ->
  q_lookup "limit" (req_query req) = Some (QStr (decimal m)) ->
  1 <= m ->
  Controller.getAll_skip req = of_Z ((Z.max 1 n - 1) * Z.min 100 m).
Proof.
  intros Hp Hl Hm. unfold Controller.getAll_skip.
  rewrite (getAll_page_parsed req n (page_decimal_parsed req n Hp)).
  rewrite (getAll_limit_parsed req m (limit_decimal_parsed req m Hl)).
  rewrite sub_of_Z. apply mul_of_Z; lia.
Qed.

Section ListTotals.

Import Controller.

Context {Store : Type}.
Variable Model : ModelOps Store.

Local Abbreviation c := (createController Model).

(** X6: with a positive limit and safe integers, a page of the list lies
    within the page count that the response reports exactly when its offset is below the
    total: pages up to [pages] start inside the collection, later pages
    start at or past its end. *)
Theorem getAll_page_within_pages (req : Request) (s : Store) (t n m : Z)
    (items : list Document) :
  q_lookup "page" (req_query req) = Some (QStr (decimal n)) ->
  q_lookup "limit" (req_query req) = Some (QStr (decimal m)) ->
  1 <= n -> 1 <= m -> 0 <= t ->
  safe_integer n -> safe_integer m -> safe_integer t ->
  safe_integer ((n - 1) * Z.min 100 m) ->
  countDocuments Model (getAll_filter req) s = Ret (of_Z t) ->
  find Model (getAll_filter req) (getAll_skip req) (getAll_limit req) s = Ret items ->
  exists k p,
    getAll_skip req = of_Z k /\
    field "pages" (field "meta" (body_sent (serve (getAll c) req s))) = JNum (of_Z p) /\
    (n <= p <-> k < t).
Proof.
  intros Hp Hl Hn Hm Ht _ _ _ _ Hc Hf.
  pose proof (getAll_skip_parsed req n m Hp Hl Hm) as Hskip.
  pose proof (getAll_limit_parsed req m (limit_decimal_parsed req m Hl)) as Hlimit.
  assert (Hl0 : 0 < Z.min 100 m) by lia.
  destruct (ceil_div_of_Z t (Z.min 100 m) Ht Hl0) as (p & Hceil & Hbound).
  exists ((Z.max 1 n - 1) * Z.min 100 m), p. split; [exact Hskip |]. split.
  - rewrite (getAll_responds Model req s _ items Hc Hf).
    unfold body_sent, responded, list_body, field; simpl.
    now rewrite Hlimit, Hceil.
  - replace (Z.max 1 n) with n by lia. split; intros H; nia.
Qed.


End ListTotals.

Lemma getAll_page_within_pages_witness :
  exists k p,
    Controller.getAll_skip Cases.page_1_limit_10 = of_Z k /\
    field "pages"
      (field "meta"
         (body_sent (serve (Controller.getAll (Controller.createController Sample.Flights))
                       Cases.page_1_limit_10 (Sample.store_of Sample.flight))))
    = JNum (of_Z p) /\
    (1 <= p <-> k < 1).
Proof.
  apply (getAll_page_within_pages Sample.Flights Cases.page_1_limit_10
           (Sample.store_of Sample.flight) 1 1 10 [Sample.flight]);
    try reflexivity; unfold safe_integer; lia.
Defined.


(** ** Every request settles *)

Ltac run_all :=
  unfold serve, Controller.createController, Controller.asyncHandler,
    Controller.create_fn, Controller.getAll_fn, Controller.getById_fn,
    Controller.update_fn, Controller.remove_fn, Controller.toggleFlag_fn,
    validationResult, isEmpty, array,
    mbind, action_bind, await, await_read, status, json, forward,
    fresh_world, responded, with_db, found_body, deleted_body, errors_body;
  simpl.

Ltac split_calls :=
  repeat match goal with
         | |- context [match ?x with _ => _ end] => destruct x eqn:?; simpl
         | H : context [match ?x with _ => _ end] |- _ => destruct x eqn:?; simpl in H
         end.

Section Settling.

Import Controller.

Context {Store : Type}.
Variable Model : ModelOps Store.

Local Abbreviation c := (createController Model).

(** X8: every request to any of the six handlers settles: either one body
    is sent and no error is handed to [next], or nothing is sent and exactly
    one error is handed to [next]. *)
Theorem every_request_settles (req : Request) (s : Store) :
  settled (serve (create c) req s) /\
  settled (serve (getAll c) req s) /\
  settled (serve (getById c) req s) /\
  settled (serve (update c) req s) /\
  settled (serve (remove c) req s) /\
  settled (serve (toggleFlag c) req s).
Proof.
  unfold settled.
  repeat split; run_all; split_calls; simplify_eq/=;
    solve [ left; eexists; split; reflexivity
          | right; split; [reflexivity | eexists; reflexivity] ].
Qed.

(** X9: a body that is sent goes with its status code: [create] answers
    with 201 or 400, [getAll] with 200, the other handlers with 200 or 404;
    a 200 or 201 body has [success] true, a 404 body is the not-found body,
    and a 400 body is the list of validation failures, which is not empty. *)
Theorem replies_match_status (req : Request) (s : Store) :
  reply_in [400; 201] req (serve (create c) req s) /\
  reply_in [200] req (serve (getAll c) req s) /\
  reply_in [200; 404] req (serve (getById c) req s) /\
  reply_in [200; 404] req (serve (update c) req s) /\
  reply_in [200; 404] req (serve (remove c) req s) /\
  reply_in [200; 404] req (serve (toggleFlag c) req s).
Proof.
  unfold reply_in.
  repeat split; revert H; run_all; split_calls; intros Hb; simplify_eq/=;
    try (now left); try (right; now left); try (right; right; now left);
    try (left; split; [auto | reflexivity]);
    try (right; left; split; reflexivity);
    try (right; right; repeat split; congruence).
Qed.

End Settling.

(** ** Reading back what was written *)

Section ReadBack.

Import Controller.

Context {Store : Type}.
Variable Model : ModelOps Store.
Variable stored : Store -> gmap string Document.
Context {L : Lawful Model stored}.

Local Abbreviation c := (createController Model).

(** What [getById] answers when its lookup returns. *)
Lemma getById_run (req : Request) (k : string) (s : Store) (r : option Document) :
  param "id" req = JStr k ->
  findById Model (JStr k) s = Ret r ->
  serve (getById c) req s
  = match stored s !! k with
    | Some d => responded 200 (found_body d) s
    | None => responded 404 not_found s
    end.
Proof.
  intros Hid Hget. rewrite <- (findById_returns s k r Hget).
  run_handler. rewrite Hid, Hget. now destruct r.
Qed.

Lemma remove_run (req : Request) (k : string) (s s1 : Store) (r : option Document) :
  param "id" req = JStr k ->
  findByIdAndDelete Model (JStr k) s = (Ret r, s1) ->
  serve (remove c) req s
  = match stored s !! k with
    | Some _ => responded 200 deleted_body s1
    | None => responded 404 not_found s1
    end
  /\ stored s1 = delete k (stored s).
Proof.
  intros Hid Hdel. destruct (delete_returns s s1 k r Hdel) as [Hr Hs1].
  split; [| exact Hs1]. rewrite <- Hr.
  run_handler. rewrite Hid, Hdel. now destruct r.
Qed.

(** X10: when its lookup returns, [getById] answers 200 with the record
    stored under the identifier, or 404 with the not-found body when none
    is stored; the store is left as it was. *)
Theorem getById_found_or_not (req : Request) (k : string) (s : Store)
    (r : option Document) :
  param "id" req = JStr k ->
  findById Model (JStr k) s = Ret r ->
  (forall d, stored s !! k = Some d ->
             serve (getById c) req s = responded 200 (found_body d) s) /\
  (stored s !! k = None -> serve (getById c) req s = responded 404 not_found s).
Proof.
  intros Hid Hget. rewrite (getById_run req k s r Hid Hget).
  split; [intros d Hd | intros Hd]; now rewrite Hd.
Qed.

(** X11: a record that [create] has answered with is read back by
    [getById] under its identifier: the fetch answers 200 with the same
    document. *)
Theorem create_then_getById (req req' : Request) (k : string) (d d' : Document)
    (s s1 s2 : Store) (r : option Document) :
  req_validation req = [] ->
  construct Model (req_body req) s = (Ret d, s1) ->
  save Model d s1 = (Ret d', s2) ->
  get_prop "_id" d' = JStr k ->
  param "id" req' = JStr k ->
  findById Model (JStr k) s2 = Ret r ->
  serve (create c) req s = responded 201 (found_body d') s2 /\
  serve (getById c) req' (db (serve (create c) req s))
  = responded 200 (found_body d') s2.
Proof.
  intros Hnil Hnew Hsave Hk Hid Hget.
  destruct (construct_returns s s1 _ d Hnew) as [[k0 Hk0] _].
  destruct (save_returns s1 s2 k0 d d' Hk0 Hsave) as (Hk0' & _ & Hs2).
  assert (k0 = k) by congruence. subst k0.
  assert (Hw : serve (create c) req s = responded 201 (found_body d') s2).
  { run_handler. unfold validationResult, isEmpty; simpl.
    rewrite Hnil. simpl. rewrite Hnew. simpl. now rewrite Hsave. }
  split; [exact Hw |]. rewrite Hw.
  change (db (responded 201 (found_body d') s2)) with s2.
  rewrite (getById_run req' k s2 r Hid Hget), Hs2, lookup_insert_eq. reflexivity.
Qed.

(** X12: [toggleFlag] on a stored record with a boolean [active] answers
    with the flag inverted, and a following [getById] answers with that same
    document. *)
Theorem toggleFlag_then_getById (req : Request) (k : string) (d d1 : Document)
    (s s1 : Store) (r r1 : option Document) (b : bool) :
  param "id" req = JStr k ->
  stored s !! k = Some d ->
  get_prop "active" d = JBool b ->
  findById Model (JStr k) s = Ret r ->
  save Model (toggled d) s = (Ret d1, s1) ->
  findById Model (JStr k) s1 = Ret r1 ->
  get_prop "active" d1 = JBool (negb b) /\
  serve (toggleFlag c) req s = responded 200 (found_body d1) s1 /\
  serve (getById c) req (db (serve (toggleFlag c) req s))
  = responded 200 (found_body d1) s1.
Proof.
  intros Hid Hd Hact Hget Hsave Hget1.
  destruct (toggleFlag_saves Model stored req k d d1 s s1 r Hid Hd Hget Hsave)
    as (Hw & Hd1 & Ha).
  rewrite Hact in Ha. split; [exact Ha |]. split; [exact Hw |].
  rewrite Hw. change (db (responded 200 (found_body d1) s1)) with s1.
  now rewrite (getById_run req k s1 r1 Hid Hget1), Hd1.
Qed.

(** X13: once [remove] has deleted a stored record, a second [remove], an
    [update] and a [toggleFlag] of the same identifier answer 404 with the
    not-found body. *)
Theorem removed_record_stays_gone (req : Request) (k : string) (d : Document)
    (s s1 : Store) (r : option Document) :
  param "id" req = JStr k ->
  stored s !! k = Some d ->
  findByIdAndDelete Model (JStr k) s = (Ret r, s1) ->
  db (serve (remove c) req s) = s1 /\
  (forall r' s2,
      findByIdAndDelete Model (JStr k) s1 = (Ret r', s2) ->
      serve (remove c) req s1 = responded 404 not_found s2) /\
  (forall r' s2,
      findByIdAndUpdate Model (JStr k) (req_body req) update_options s1 = (Ret r', s2) ->
      serve (update c) req s1 = responded 404 not_found s2) /\
  (forall r',
      findById Model (JStr k) s1 = Ret r' ->
      serve (toggleFlag c) req s1 = responded 404 not_found s1).
Proof.
  intros Hid Hd Hdel.
  destruct (remove_run req k s s1 r Hid Hdel) as [Hw Hs1].
  assert (Hgone : stored s1 !! k = None) by (rewrite Hs1; apply lookup_delete_eq).
  split; [now rewrite Hw, Hd |]. split; [| split].
  - intros r' s2 Hdel'. destruct (remove_run req k s1 s2 r' Hid Hdel') as [Hw' _].
    now rewrite Hw', Hgone.
  - intros r' s2 Hupd. destruct (update_absent s1 s2 k _ _ r' Hupd Hgone) as [-> _].
    run_handler. rewrite Hid. unfold update_options in Hupd. now rewrite Hupd.
  - intros r' Hget. pose proof (findById_returns s1 k r' Hget) as Hr.
    rewrite Hgone in Hr. subst r'. run_handler. rewrite Hid. now rewrite Hget.
Qed.

(** X14: [remove] and [toggleFlag] of one identifier leave the records
    stored under every other identifier as they were; the record itself is
    gone after [remove] and is the saved document after [toggleFlag]. *)
Theorem other_records_untouched (req : Request) (k j : string) (d : Document)
    (s : Store) :
  param "id" req = JStr k ->
  stored s !! k = Some d ->
  j <> k ->
  (forall r s1,
      findByIdAndDelete Model (JStr k) s = (Ret r, s1) ->
      stored (db (serve (remove c) req s)) !! j = stored s !! j /\
      stored (db (serve (remove c) req s)) !! k = None) /\
  (forall r d1 s1,
      findById Model (JStr k) s = Ret r ->
      save Model (toggled d) s = (Ret d1, s1) ->
      stored (db (serve (toggleFlag c) req s)) !! j = stored s !! j /\
      stored (db (serve (toggleFlag c) req s)) !! k = Some d1).
Proof.
  intros Hid Hd Hne. split.
  - intros r s1 Hdel. destruct (remove_run req k s s1 r Hid Hdel) as [Hw Hs1].
    rewrite Hw, Hd. simpl. rewrite Hs1.
    split; [now apply lookup_delete_ne | apply lookup_delete_eq].
  - intros r d1 s1 Hget Hsave.
    destruct (toggleFlag_saves Model stored req k d d1 s s1 r Hid Hd Hget Hsave)
      as (Hw & Hd1 & _).
    assert (Hk : get_prop "_id" (toggled d) = JStr k).
    { rewrite toggled_id. now apply (stored_id s). }
    destruct (save_returns s s1 k _ d1 Hk Hsave) as (_ & _ & Hs1).
    rewrite Hw. simpl. split; [| exact Hd1].
    rewrite Hs1. now apply lookup_insert_ne.
Qed.

End ReadBack.

(** ** What [toggleFlag] saves *)

Section OnlyActive.

Import Controller.

Context {Store : Type}.
Variable Model : ModelOps Store.

Local Abbreviation c := (createController Model).

(** X15: when [toggleFlag] finds a document, the document it saves is the
    one it found with [active] set to the negation of its truth value and
    every other property unchanged; it answers with what the save returned,
    or hands the error of the save to [next]. *)
Theorem toggleFlag_touches_only_active (req : Request) (d : Document) (s : Store) :
  findById Model (param "id" req) s = Ret (Some d) ->
  serve (toggleFlag c) req s
  = match save Model (toggled d) s with
    | (Ret d1, s1) => responded 200 (found_body d1) s1
    | (Throw e, s1) => {| db := s1; res := fresh_response; forwarded := [e] |}
    end /\
  get_prop "active" (toggled d) = JBool (negb (truthy (get_prop "active" d))) /\
  (forall k, k <> "active"%string -> get_prop k (toggled d) = get_prop k d).
Proof.
  intros Hget. split; [| split].
  - run_handler. rewrite Hget. simpl. unfold toggled.
    now destruct (save Model _ s) as [[d1 | e] s1].
  - apply toggled_active.
  - intros k Hk. now apply get_set_other.
Qed.

End OnlyActive.

(** ** The further theorems at the model kept in memory *)

Section MoreWitnesses.

Import Controller Sample Cases.

Local Abbreviation c := (createController Flights).

Lemma getById_found_or_not_witness :
  serve (getById c) by_id (store_of flight)
  = responded 200 (found_body flight) (store_of flight) /\
  serve (getById c) by_id empty_store = responded 404 not_found empty_store.
Proof.
  split.
  - apply (proj1 (getById_found_or_not Flights Mem.stored by_id flight_id
                    (store_of flight) (Some flight) eq_refl eq_refl) flight).
    reflexivity.
  - apply (proj2 (getById_found_or_not Flights Mem.stored by_id flight_id
                    empty_store None eq_refl eq_refl)).
    reflexivity.
Defined.

Lemma create_then_getById_witness :
  serve (create c) new_flight empty_store = responded 201 (found_body created) created_store /\
  serve (getById c) (request_with_id "000000000000000000000001" JNull)
    (db (serve (create c) new_flight empty_store))
  = responded 200 (found_body created) created_store.
Proof.
  apply (create_then_getById Flights Mem.stored new_flight
           (request_with_id "000000000000000000000001" JNull)
           "000000000000000000000001" created created
           empty_store {| Mem.records := ∅; Mem.counter := 2 |} created_store
           (Some created));
    reflexivity.
Defined.

Lemma toggleFlag_then_getById_witness :
  get_prop "active" (toggled flight_on) = JBool false /\
  serve (toggleFlag c) by_id (store_of flight_on)
  = responded 200 (found_body (toggled flight_on)) (store_of (toggled flight_on)) /\
  serve (getById c) by_id (db (serve (toggleFlag c) by_id (store_of flight_on)))
  = responded 200 (found_body (toggled flight_on)) (store_of (toggled flight_on)).
Proof.
  apply (toggleFlag_then_getById Flights Mem.stored by_id flight_id
           flight_on (toggled flight_on)
           (store_of flight_on) (store_of (toggled flight_on))
           (Some flight_on) (Some (toggled flight_on)) true);
    reflexivity.
Defined.

Lemma removed_record_stays_gone_witness :
  db (serve (remove c) by_id (store_of flight)) = empty_store /\
  serve (remove c) by_id empty_store = responded 404 not_found empty_store /\
  serve (update c) by_id empty_store = responded 404 not_found empty_store /\
  serve (toggleFlag c) by_id empty_store = responded 404 not_found empty_store.
Proof.
  destruct (removed_record_stays_gone Flights Mem.stored by_id flight_id flight
              (store_of flight) empty_store (Some flight) eq_refl eq_refl eq_refl)
    as (Hdb & Hdel & Hupd & Htog).
  split; [exact Hdb |]. split; [| split].
  - apply (Hdel None empty_store). reflexivity.
  - apply (Hupd None empty_store). reflexivity.
  - apply (Htog None). reflexivity.
Defined.

Lemma other_records_untouched_witness :
  (Mem.stored (db (serve (remove c) by_id two_flights)) !! other_id = Some other /\
   Mem.stored (db (serve (remove c) by_id two_flights)) !! flight_id = None) /\
  (Mem.stored (db (serve (toggleFlag c) by_id two_flights)) !! other_id = Some other /\
   Mem.stored (db (serve (toggleFlag c) by_id two_flights)) !! flight_id
   = Some (toggled flight_on)).
Proof.
  destruct (other_records_untouched Flights Mem.stored by_id flight_id other_id
              flight_on two_flights eq_refl eq_refl ltac:(discriminate))
    as (Hdel & Htog).
  split.
  - apply (Hdel (Some flight_on)
             {| Mem.records := delete flight_id (Mem.records two_flights);
                Mem.counter := 1 |}).
    reflexivity.
  - apply (Htog (Some flight_on) (toggled flight_on)
             {| Mem.records := <[flight_id := toggled flight_on]> (Mem.records two_flights);
                Mem.counter := 1 |});
      reflexivity.
Defined.

Lemma toggleFlag_touches_only_active_witness :
  serve (toggleFlag c) by_id (store_of flight)
  = responded 200 (found_body (toggled flight)) (store_of (toggled flight)) /\
  get_prop "active" (toggled flight) = JBool true /\
  (forall k, k <> "active"%string -> get_prop k (toggled flight) = get_prop k flight).
Proof.
  apply (toggleFlag_touches_only_active Flights by_id flight (store_of flight)).
  reflexivity.
Defined.

End MoreWitnesses.
